(** * Real-time messaging layer: sessions, rooms and message fan-out

    A shallow embedding of the socket event handlers of [asgi.py]
    ([connect], [join], [join_order_room], [leave_order_room],
    [send_message], [send_user_message]), of [serialize_message] and
    [send_message_to_user] of [main.py], and of the [Message] row of
    [models.py].  Further on, the history and profile endpoints of
    [main.py] ([support_messages], [send_support_message],
    [client_order_messages], [admin_messages], [update_order],
    [profile_stats], [update_profile], [client_register], [create_order],
    [client_order_detail]), [send_message_to_user] of [flask_app.py] and
    [ensure_admin] of [create_admin.py], over the tables as lists of rows.

    The socket server object [sio] and the database session are external
    to the repository.  They are represented by their interface:
    - [Sio]: a session registry (sid -> saved session) and a room index
      (room name -> set of sids) with [save_session], [get_session],
      [enter_room], [leave_room] and [emit];
    - the table of messages is the list of stored rows, and the answer of
      the database to [db.add; db.commit; db.refresh] is an input of the
      handler ([db_result]), as is what a column makes of a value that
      is not of its type ([cast]).
    [sio] is an [AsyncServer], whose [save_session] and [get_session] are
    coroutine functions.  The handlers call both without [await]: such a
    call gives a coroutine object and runs nothing of the method, and the
    handlers go on with that object ([coroutine]).  [enter_room],
    [leave_room] and [emit] are awaited and do run.
    Handlers are state-passing functions: they take the world before the
    event and give back the world after it, what every connection was
    sent, and whether the handler returned or raised. *)

From stdpp Require Import gmap strings list fin_maps pretty sorting.
From Stdlib Require Import ZArith.

Set Warnings "-register-all,-clear-no-such-hyp".

Local Open Scope string_scope.
Local Open Scope list_scope.
Local Open Scope Z_scope.

(** ** Python values *)

(** Values that reach the handlers: decoded JSON payloads, JWT claims and
    the [datetime] the database puts in [created_at]. *)
Inductive pyval : Type :=
  | PNone
  | PBool (b : bool)
  | PInt (n : Z)
  | PStr (s : string)
  | PDateTime (t : Z)
  | PList (l : list pyval)
  | PDict (d : list (string * pyval)).

(** [bool(v)], as used by [if not v]. *)
Definition truthy (v : pyval) : bool :=
  match v with
  | PNone => false
  | PBool b => b
  | PInt n => negb (n =? 0)
  | PStr s => negb (String.eqb s "")
  | PDateTime _ => true
  | PList l => match l with [] => false | _ => true end
  | PDict d => match d with [] => false | _ => true end
  end.

(** Dictionaries are association lists in insertion order. *)
Fixpoint dict_get (d : list (string * pyval)) (k : string) : option pyval :=
  match d with
  | [] => None
  | (k', v) :: d' => if String.eqb k' k then Some v else dict_get d' k
  end.

(** [d[k] = v]: replace in place, or append a new key. *)
Fixpoint dict_set (d : list (string * pyval)) (k : string) (v : pyval)
  : list (string * pyval) :=
  match d with
  | [] => [(k, v)]
  | (k', v') :: d' =>
      if String.eqb k' k then (k, v) :: d' else (k', v') :: dict_set d' k v
  end.

(** [json.dumps] has no encoding for a [datetime]. *)
Fixpoint json_serializable (v : pyval) : bool :=
  match v with
  | PDateTime _ => false
  | PList l => forallb json_serializable l
  | PDict d => forallb (fun kv => json_serializable (snd kv)) d
  | _ => true
  end.

(** ** Exceptions *)

Inductive exn : Type :=
  | AttributeError
  | TypeError
  | DatabaseError.

Inductive res (A : Type) : Type :=
  | Ok (a : A)
  | Raise (e : exn).
Arguments Ok {A} a.
Arguments Raise {A} e.

#[global] Instance res_ret : MRet res := fun A a => Ok a.
#[global] Instance res_bind : MBind res := fun A B f m =>
  match m with
  | Ok a => f a
  | Raise e => Raise e
  end.

(** [v.get(k, dflt)]: only a dict has the method. *)
Definition py_get (v : pyval) (k : string) (dflt : pyval) : res pyval :=
  match v with
  | PDict d => Ok (default dflt (dict_get d k))
  | _ => Raise AttributeError
  end.

(** ** Text

    A [string] holds a Python [str] by its UTF-8 bytes, one character
    being one to four bytes. *)

(** The code points [str.strip()] takes away: those for which
    [str.isspace()] holds. *)
Definition py_isspace (cp : N) : bool :=
  ((9 <=? cp) && (cp <=? 13) || (28 <=? cp) && (cp <=? 32)
   || (cp =? 133) || (cp =? 160) || (cp =? 5760)
   || (8192 <=? cp) && (cp <=? 8202)
   || (cp =? 8232) || (cp =? 8233) || (cp =? 8239) || (cp =? 8287)
   || (cp =? 12288))%N.

(** The code point of a character of one, two or three bytes.  All
    whitespace lies below U+10000, so the characters of four bytes are
    not needed. *)
Definition utf8_tail (b : N) : bool := ((128 <=? b) && (b <? 192))%N.

Definition utf8_1 (b0 : N) : option N :=
  if (b0 <? 128)%N then Some b0 else None.

Definition utf8_2 (b0 b1 : N) : option N :=
  if ((194 <=? b0) && (b0 <? 224))%N && utf8_tail b1
  then Some ((b0 - 192) * 64 + (b1 - 128))%N else None.

Definition utf8_3 (b0 b1 b2 : N) : option N :=
  if ((224 <=? b0) && (b0 <? 240))%N && utf8_tail b1 && utf8_tail b2
  then let cp := ((b0 - 224) * 4096 + (b1 - 128) * 64 + (b2 - 128))%N in
       if (2048 <=? cp)%N then Some cp else None
  else None.

Definition is_space (cp : option N) : bool :=
  match cp with
  | Some n => py_isspace n
  | None => false
  end.

Definition byte (c : Ascii.ascii) : N := Ascii.N_of_ascii c.

(** What is left of [s] behind the whitespace character it begins with,
    if it begins with one. *)
Definition leading_space (s : string) : option string :=
  match s with
  | String c0 s1 =>
      if is_space (utf8_1 (byte c0)) then Some s1
      else match s1 with
           | String c1 s2 =>
               if is_space (utf8_2 (byte c0) (byte c1)) then Some s2
               else match s2 with
                    | String c2 s3 =>
                        if is_space (utf8_3 (byte c0) (byte c1) (byte c2))
                        then Some s3 else None
                    | EmptyString => None
                    end
           | EmptyString => None
           end
  | EmptyString => None
  end.

(** The same at the other end, on the bytes in reverse order. *)
Definition trailing_space (r : string) : option string :=
  match r with
  | String c0 r1 =>
      if is_space (utf8_1 (byte c0)) then Some r1
      else match r1 with
           | String c1 r2 =>
               if is_space (utf8_2 (byte c1) (byte c0)) then Some r2
               else match r2 with
                    | String c2 r3 =>
                        if is_space (utf8_3 (byte c2) (byte c1) (byte c0))
                        then Some r3 else None
                    | EmptyString => None
                    end
           | EmptyString => None
           end
  | EmptyString => None
  end.

(** Take whitespace characters away from the front while there are any;
    [fuel] bounds the number of turns, and the length of the string is
    enough of it. *)
Fixpoint drop_spaces (next : string -> option string) (fuel : nat) (s : string)
    : string :=
  match fuel with
  | O => s
  | S fuel' =>
      match next s with
      | Some rest => drop_spaces next fuel' rest
      | None => s
      end
  end.

Definition lstrip (s : string) : string :=
  drop_spaces leading_space (String.length s) s.

Definition rstrip (s : string) : string :=
  String.rev (drop_spaces trailing_space (String.length s) (String.rev s)).

Definition strip (s : string) : string := rstrip (lstrip s).

(** [v.strip()]: only a string has the method. *)
Definition py_strip (v : pyval) : res string :=
  match v with
  | PStr s => Ok (strip s)
  | _ => Raise AttributeError
  end.

(** ** Columns *)

(** The column types of [models.py] that take values from a request. *)
Module Column.
Inductive t : Type :=
  | BigInteger
  | String (length : nat)
  | Text.
End Column.

(** What a column holds once a row is written.  A value of the type of
    the column is stored as it is, and [None] as NULL.  A value of
    another type (the string ['7'] for a [BigInteger], the number [5] for
    a [Text]) is cast by the database when the database takes the write
    at all; what the cast gives is the database's business, [cast]. *)
Definition column (cast : Column.t -> pyval -> pyval) (ty : Column.t) (v : pyval)
    : pyval :=
  match ty, v with
  | _, PNone => PNone
  | Column.BigInteger, PInt _ => v
  | Column.String _, PStr _ => v
  | Column.Text, PStr _ => v
  | _, _ => cast ty v
  end.

(** ** models.Message *)

Module Message.
Record t : Type := Build {
  id : pyval;
  user_id : pyval;
  username : pyval;
  direction : string;
  text : string;
  chat_id : pyval;
  message_type : pyval;
  order_id : pyval;
  created_at : pyval
}.
End Message.

(** [Message(user_id=.., username=.., direction=.., text=.., order_id=..)]:
    the columns not given are [None] until the row is written. *)
Definition new_Message (user_id username : pyval) (direction text : string)
    (order_id : pyval) : Message.t :=
  {| Message.id := PNone;
     Message.user_id := user_id;
     Message.username := username;
     Message.direction := direction;
     Message.text := text;
     Message.chat_id := PNone;
     Message.message_type := PNone;
     Message.order_id := order_id;
     Message.created_at := PNone |}.

(** main.serialize_message *)
Definition serialize_message (m : Message.t) : list (string * pyval) :=
  [ ("id", Message.id m);
    ("user_id", Message.user_id m);
    ("direction", PStr (Message.direction m));
    ("text", PStr (Message.text m));
    ("order_id", Message.order_id m);
    ("created_at", Message.created_at m) ].

(** ** The database session *)

(** What the database answers to the write of one row: it fails, or it
    commits and gives the row its primary key and its [created_at].
    Whether it commits is its own business: a value out of the range of
    its column, a text too long for it, or an [order_id] that is the key
    of no order (the column is a foreign key) make it fail. *)
Inductive db_result : Type :=
  | DbFails
  | DbCommits (new_id : Z) (now : Z).

(** Modelled from the spec: the message store behind [SessionLocal()]
    (spec 6, [append(Message) -> MessageId]); here what
    [db.add(msg); db.commit(); db.refresh(msg)] does to the table [rows]:
    nothing when the write fails, one row appended otherwise, each value
    as its column holds it. *)
Definition db_add_commit (cast : Column.t -> pyval -> pyval)
    (rows : list Message.t) (msg : Message.t) (db : db_result)
    : res (list Message.t * Message.t) :=
  match db with
  | DbFails => Raise DatabaseError
  | DbCommits new_id now =>
      let row :=
        {| Message.id := PInt new_id;
           Message.user_id := column cast Column.BigInteger (Message.user_id msg);
           Message.username :=
             column cast (Column.String 200) (Message.username msg);
           Message.direction := Message.direction msg;
           Message.text := Message.text msg;
           Message.chat_id := column cast Column.BigInteger (Message.chat_id msg);
           Message.message_type :=
             column cast (Column.String 50) (Message.message_type msg);
           Message.order_id := column cast Column.BigInteger (Message.order_id msg);
           Message.created_at := PDateTime now |} in
      Ok (rows ++ [row], row)
  end.

(** ** Coroutine objects *)

(** The call of a coroutine function gives a coroutine object; the body
    of the function runs when the object is awaited, and not at all when
    it never is.  [body] is what awaiting would do. *)
Inductive coroutine (A : Type) : Type :=
  | Coroutine (body : A).
Arguments Coroutine {A} body.

(** [bool(c)]: the object has neither [__bool__] nor [__len__]. *)
Definition coroutine_truthy {A} (c : coroutine A) : bool := true.

(** [c[key]]: the object is not subscriptable. *)
Definition coroutine_getitem {A} (c : coroutine A) (key : string) : res pyval :=
  Raise TypeError.

(** ** The socket server *)

(** The dict saved by [connect]: it always has the two keys. *)
Record session : Type := Session {
  sess_user_id : pyval;
  sess_username : pyval
}.

Record world : Type := World {
  sessions : gmap string session;
  rooms : gmap string (gset string);
  messages : list Message.t
}.

(** One event as one connection receives it. *)
Record delivery : Type := Delivery {
  to_sid : string;
  event_name : string;
  payload : list (string * pyval)
}.

(** The server object [sio] of the socket library: session registry and
    room index (spec 2 and 4.2). *)
Module Sio.

(** Modelled from the spec: the session registry maps a live connection
    to its authenticated identity.  This is the body of the coroutine
    function [save_session]. *)
Definition save_session (w : world) (sid : string) (s : session) : world :=
  {| sessions := <[sid := s]> (sessions w);
     rooms := rooms w;
     messages := messages w |}.

(** Modelled from the spec: lookup in the session registry, the body of
    the coroutine function [get_session]. *)
Definition get_session (w : world) (sid : string) : option session :=
  sessions w !! sid.

(** Modelled from the spec: [membersOf(room)], the current snapshot. *)
Definition members (w : world) (room : string) : gset string :=
  default ∅ (rooms w !! room).

(** Modelled from the spec: [join(room, connectionId)] of the room
    index. *)
Definition enter_room (w : world) (sid room : string) : world :=
  {| sessions := sessions w;
     rooms := <[room := {[sid]} ∪ members w room]> (rooms w);
     messages := messages w |}.

(** Modelled from the spec: [leave(room, connectionId)] of the room
    index.  Leaving a room one is not in does nothing; the entry of a
    room that becomes empty is removed. *)
Definition leave_room (w : world) (sid room : string) : world :=
  match rooms w !! room with
  | None => w
  | Some sids =>
      if decide (sid ∈ sids) then
        let rest := sids ∖ {[sid]} in
        {| sessions := sessions w;
           rooms := if decide (rest = ∅) then delete room (rooms w)
                    else <[room := rest]> (rooms w);
           messages := messages w |}
      else w
  end.

(** Modelled from the spec: the fan-out of [emit(event, data, room=room)],
    one copy to every member of the snapshot of the room.  The packet is
    encoded as JSON first, once for all members, so data that JSON cannot
    hold raise before anything is sent. *)
Definition emit (w : world) (event : string) (data : list (string * pyval))
    (room : string) : res (list delivery) :=
  if json_serializable (PDict data)
  then Ok ((fun sid => Delivery sid event data) <$> elements (members w room))
  else Raise TypeError.

End Sio.

(** What a handler returns to the server: a value, or an exception. *)
Inductive outcome : Type :=
  | Returned (v : pyval)
  | Raised (e : exn).

Record effect : Type := Effect {
  after : world;
  sent : list delivery;
  result : outcome
}.

(** A handler that stops at a bare [return]. *)
Definition silent (w : world) : effect := Effect w [] (Returned PNone).

(** Printing of the scalars as [str()] prints them, for the concrete
    scenarios, none of which prints a list or a dict (shown here as
    their brackets only).  The handlers take the printer as a parameter. *)
Definition str_scalar (v : pyval) : string :=
  match v with
  | PNone => "None"
  | PBool true => "True"
  | PBool false => "False"
  | PInt n => pretty n
  | PStr s => s
  | PDateTime t => pretty t
  | PList _ => "[]"
  | PDict _ => "{}"
  end.

(** ** The HTTP endpoints of main.py *)

(** What an endpoint gives back: the value it returns (status 200), or
    the [HTTPException] it raises, or another exception. *)
Inductive http (A : Type) : Type :=
  | Http200 (a : A)
  | HTTPException (status_code : Z) (detail : string)
  | Unhandled (e : exn).
Arguments Http200 {A} a.
Arguments HTTPException {A} status_code detail.
Arguments Unhandled {A} e.

(** models.User *)
Module User.
Record t : Type := Build {
  id : Z;
  username : string;
  password_hash : string;
  role : option string;
  email : option string;
  telegram_id : option Z;
  created_at : pyval
}.
End User.

(** models.Order: the primary key and the owner are integers; the other
    columns hold what was put in them. *)
Module Order.
Record t : Type := Build {
  id : Z;
  user_id : option Z;
  first_name : pyval;
  username : pyval;
  phone_number : pyval;
  type_label : pyval;
  order_type : pyval;
  topic : pyval;
  subject : pyval;
  deadline : pyval;
  volume : pyval;
  requirements : pyval;
  files : pyval;
  price : pyval;
  status : pyval;
  created_at : pyval;
  updated_at : pyval;
  confirmed_at : pyval;
  manager_id : pyval;
  notes : pyval
}.
End Order.

(** models.OrderStatusHistory *)
Module OrderStatusHistory.
Record t : Type := Build {
  id : pyval;
  order_id : Z;
  status : pyval;
  changed_by : Z;
  changed_at : pyval;
  notes : pyval
}.
End OrderStatusHistory.

(** [column == n] in a query filter: a NULL or a value that is no
    integer matches nothing. *)
Definition col_eq_int (v : pyval) (n : Z) : bool :=
  match v with
  | PInt k => k =? n
  | _ => false
  end.

(** [column == s] in a query filter, for a string. *)
Definition col_eq_str (v : pyval) (s : string) : bool :=
  match v with
  | PStr x => String.eqb x s
  | _ => false
  end.

(** [column == None] in a query filter. *)
Definition col_is_null (v : pyval) : bool :=
  match v with
  | PNone => true
  | _ => false
  end.

(** The order of [order_by(Message.created_at.asc())]: by timestamp,
    rows without one last. *)
Definition created_key (m : Message.t) : option Z :=
  match Message.created_at m with
  | PDateTime t => Some t
  | _ => None
  end.

Definition created_before (a b : Message.t) : Prop :=
  match created_key a, created_key b with
  | Some x, Some y => x <= y
  | _, None => True
  | None, Some _ => False
  end.

#[global] Instance created_before_dec a b : Decision (created_before a b).
Proof.
  unfold created_before.
  destruct (created_key a), (created_key b); apply _.
Defined.

(** Rows with equal timestamps come out in some order the database
    picks; here the one of a merge sort. *)
Definition order_by_created_at_asc (rows : list Message.t) : list Message.t :=
  merge_sort created_before rows.

(** [db.get(Order, order_id)] *)
Definition db_get_order (orders : list Order.t) (order_id : Z) : option Order.t :=
  find (fun o => Order.id o =? order_id) orders.

(** main.support_messages, for the user [get_current_user] gave. *)
Definition support_messages (rows : list Message.t) (user : User.t)
    : list (list (string * pyval)) :=
  serialize_message <$>
    order_by_created_at_asc
      (filter (fun m => col_eq_int (Message.user_id m) (User.id user)
                        && col_is_null (Message.order_id m)) rows).

(** main.client_order_messages *)
Definition client_order_messages (orders : list Order.t) (rows : list Message.t)
    (order_id : Z) (user : User.t) : http (list (list (string * pyval))) :=
  match db_get_order orders order_id with
  | None => HTTPException 404 "Not found"
  | Some o =>
      if negb (bool_decide (Order.user_id o = Some (User.id user)))
      then HTTPException 404 "Not found"
      else Http200
             (serialize_message <$>
                order_by_created_at_asc
                  (filter (fun m => col_eq_int (Message.order_id m) order_id) rows))
  end.

(** main.admin_messages, for a request that passed [get_current_admin]. *)
Definition admin_messages (rows : list Message.t) (user_id : option Z)
    : list (list (string * pyval)) :=
  let wanted (m : Message.t) : bool :=
    match user_id with
    | Some n =>
        if negb (n =? 0)
        then col_eq_int (Message.user_id m) n && col_is_null (Message.order_id m)
        else col_is_null (Message.order_id m)
    | None => col_is_null (Message.order_id m)
    end in
  serialize_message <$>
    take 2000 (order_by_created_at_asc (filter (fun m => wanted m) rows)).

(** main.serialize_order *)
Definition serialize_order (o : Order.t) : list (string * pyval) :=
  [ ("id", PInt (Order.id o));
    ("user_id", from_option PInt PNone (Order.user_id o));
    ("first_name", Order.first_name o);
    ("username", Order.username o);
    ("phone_number", Order.phone_number o);
    ("type_label", Order.type_label o);
    ("order_type", Order.order_type o);
    ("topic", Order.topic o);
    ("subject", Order.subject o);
    ("deadline", Order.deadline o);
    ("volume", Order.volume o);
    ("requirements", Order.requirements o);
    ("files", if truthy (Order.files o) then Order.files o else PList []);
    ("price", Order.price o);
    ("status", Order.status o);
    ("created_at", Order.created_at o);
    ("updated_at", Order.updated_at o);
    ("confirmed_at", Order.confirmed_at o);
    ("manager_id", Order.manager_id o);
    ("notes", Order.notes o) ].

(** [setattr(o, k, v)] for the two attributes [update_order] allows.  The
    object in memory takes the value as it comes; what the columns
    [status] and [notes] make of it is settled when the row is written
    ([flush_order]). *)
Definition setattr_order (o : Order.t) (k : string) (v : pyval) : Order.t :=
  if String.eqb k "status" then
    Order.Build (Order.id o) (Order.user_id o) (Order.first_name o)
      (Order.username o) (Order.phone_number o) (Order.type_label o)
      (Order.order_type o) (Order.topic o) (Order.subject o) (Order.deadline o)
      (Order.volume o) (Order.requirements o) (Order.files o) (Order.price o)
      v (Order.created_at o) (Order.updated_at o) (Order.confirmed_at o)
      (Order.manager_id o) (Order.notes o)
  else if String.eqb k "notes" then
    Order.Build (Order.id o) (Order.user_id o) (Order.first_name o)
      (Order.username o) (Order.phone_number o) (Order.type_label o)
      (Order.order_type o) (Order.topic o) (Order.subject o) (Order.deadline o)
      (Order.volume o) (Order.requirements o) (Order.files o) (Order.price o)
      (Order.status o) (Order.created_at o) (Order.updated_at o)
      (Order.confirmed_at o) (Order.manager_id o) v
  else o.

(** [k in payload] *)
Definition assigned (payload : list (string * pyval)) (k : string) : bool :=
  match dict_get payload k with
  | Some _ => true
  | None => false
  end.

(** The row the UPDATE of the commit leaves for the object [o]: the
    attributes that were assigned are written, [status] into its
    [String(50)] and [notes] into its [Text]; the others stay as stored. *)
Definition flush_order (cast : Column.t -> pyval -> pyval)
    (payload : list (string * pyval)) (o : Order.t) : Order.t :=
  Order.Build (Order.id o) (Order.user_id o) (Order.first_name o)
    (Order.username o) (Order.phone_number o) (Order.type_label o)
    (Order.order_type o) (Order.topic o) (Order.subject o) (Order.deadline o)
    (Order.volume o) (Order.requirements o) (Order.files o) (Order.price o)
    (if assigned payload "status"
     then column cast (Column.String 50) (Order.status o) else Order.status o)
    (Order.created_at o) (Order.updated_at o) (Order.confirmed_at o)
    (Order.manager_id o)
    (if assigned payload "notes"
     then column cast Column.Text (Order.notes o) else Order.notes o).

(** The column [updated_at] has [onupdate=func.now()]: what the commit
    leaves in it is the database's business. *)
Definition with_updated_at (o : Order.t) (v : pyval) : Order.t :=
  Order.Build (Order.id o) (Order.user_id o) (Order.first_name o)
    (Order.username o) (Order.phone_number o) (Order.type_label o)
    (Order.order_type o) (Order.topic o) (Order.subject o) (Order.deadline o)
    (Order.volume o) (Order.requirements o) (Order.files o) (Order.price o)
    (Order.status o) (Order.created_at o) v (Order.confirmed_at o)
    (Order.manager_id o) (Order.notes o).

(** The answer of the database to the commit of [update_order]: it
    fails, or it commits, gives the history row its key and its
    [changed_at], and leaves [updated_at] in the order's column. *)
Inductive update_result : Type :=
  | UpdateFails
  | UpdateCommits (hist_id : Z) (now : Z) (updated_at : pyval).

(** [k in allowed] for [allowed = {'status', 'notes'}]. *)
Definition allowed (k : string) : bool :=
  String.eqb k "status" || String.eqb k "notes".

(** One turn of the loop of [update_order], on the order and the flag
    [changed]. *)
Definition assign_step (acc : Order.t * bool) (item : string * pyval)
    : Order.t * bool :=
  let '(o, changed) := acc in
  let '(k, v) := item in
  if allowed k then (setattr_order o k v, true) else (o, changed).

(** The loop of [update_order] over [payload.items()]. *)
Definition assign_allowed (o : Order.t) (payload : list (string * pyval))
    : Order.t * bool :=
  foldl assign_step (o, false) payload.

(** The inner [count(status)] of [profile_stats]. *)
Definition count_status (orders : list Order.t) (user : User.t) (status : string)
    : nat :=
  length (filter (fun o => bool_decide (Order.user_id o = Some (User.id user))
                           && col_eq_str (Order.status o) status) orders).

(** main.profile_stats *)
Definition profile_stats (orders : list Order.t) (user : User.t)
    : list (string * pyval) :=
  let total :=
    length (filter (fun o => bool_decide (Order.user_id o = Some (User.id user)))
                   orders) in
  [ ("total_orders", PInt (Z.of_nat total));
    ("pending", PInt (Z.of_nat (count_status orders user "pending")));
    ("in_progress", PInt (Z.of_nat (count_status orders user "in_progress")));
    ("completed", PInt (Z.of_nat (count_status orders user "completed"))) ].

(** The answer of the database to a commit that creates no row. *)
Inductive write_result : Type :=
  | WriteFails
  | WriteCommits.

(** main.update_profile, for the user [get_current_user] gave.  [phone]
    is not stored. *)
Definition update_profile (users : list User.t)
    (username email phone : option string) (user : User.t) (db : write_result)
    : list User.t * http (list (string * pyval)) :=
  let '(user1, changed1) :=
    match username with
    | Some name =>
        if negb (String.eqb name "") && negb (String.eqb name (User.username user))
        then (User.Build (User.id user) name (User.password_hash user)
                (User.role user) (User.email user) (User.telegram_id user)
                (User.created_at user), true)
        else (user, false)
    | None => (user, false)
    end in
  let '(user2, changed2) :=
    match email with
    | Some mail =>
        if negb (String.eqb mail "")
           && negb (bool_decide (Some mail = User.email user1))
        then (User.Build (User.id user1) (User.username user1)
                (User.password_hash user1) (User.role user1) (Some mail)
                (User.telegram_id user1) (User.created_at user1), true)
        else (user1, changed1)
    | None => (user1, changed1)
    end in
  if changed2 then
    match db with
    | WriteFails => (users, Unhandled DatabaseError)
    | WriteCommits =>
        ((fun u => if User.id u =? User.id user then user2 else u) <$> users,
         Http200 [("success", PBool true)])
    end
  else (users, Http200 [("success", PBool true)]).

(** auth.create_access_token.  [jwt_encode] is [jwt.encode] with the
    secret and the algorithm of the settings; [expire] is the time at
    which the token ends, [utcnow()] plus the life time. *)
Definition create_access_token (jwt_encode : list (string * pyval) -> string)
    (data : list (string * pyval)) (expire : Z) : string :=
  jwt_encode (dict_set data "exp" (PDateTime expire)).

(** main.client_register.  [hashed] is what [hash_password(password)]
    gave in this call. *)
Definition client_register (jwt_encode : list (string * pyval) -> string)
    (users : list User.t) (email username password hashed : string)
    (expire : Z) (db : db_result)
    : list User.t * http (list (string * pyval)) :=
  match find (fun u => bool_decide (User.email u = Some email)
                       || String.eqb (User.username u) username) users with
  | Some _ => (users, HTTPException 400 "User exists")
  | None =>
      match db with
      | DbFails => (users, Unhandled DatabaseError)
      | DbCommits new_id now =>
          let user :=
            User.Build new_id username hashed (Some "client") (Some email) None
              (PDateTime now) in
          (users ++ [user],
           Http200
             [("token",
               PStr (create_access_token jwt_encode
                       [("user_id", PInt (User.id user));
                        ("username", PStr (User.username user))] expire))])
      end
  end.

(** main.generate_order_id: [random.randint(10**8, 10**9-1)], for the
    generator [randint] of numbers between two bounds. *)
Definition generate_order_id (randint : Z -> Z -> Z) : Z :=
  randint (10 ^ 8) (10 ^ 9 - 1).

(** The order [create_order] builds, with the key [generate_order_id()]
    gave; [files] are the names of the uploaded files. *)
Definition new_order (order_id : Z) (user : User.t)
    (topic requirements : string) (order_type subject deadline volume : pyval)
    (files : list string) : Order.t :=
  {| Order.id := order_id;
     Order.user_id := Some (User.id user);
     Order.first_name := PStr (User.username user);
     Order.username := PStr (User.username user);
     Order.phone_number := PNone;
     Order.type_label := PNone;
     Order.order_type := order_type;
     Order.topic := PStr topic;
     Order.subject := subject;
     Order.deadline := deadline;
     Order.volume := volume;
     Order.requirements := PStr requirements;
     Order.files :=
       PList ((fun f => PDict [("file_id", PStr f); ("file_name", PStr f)])
                <$> files);
     Order.price := PNone;
     Order.status := PStr "pending";
     Order.created_at := PNone;
     Order.updated_at := PNone;
     Order.confirmed_at := PNone;
     Order.manager_id := PNone;
     Order.notes := PNone |}.

(** main.create_order, for the user [get_current_user] gave; the
    promocode of the form is not used.  The committed row gets its two
    timestamps from the database. *)
Definition create_order (orders : list Order.t) (order_id : Z) (user : User.t)
    (topic requirements : string) (order_type subject deadline volume : pyval)
    (files : list string) (db : write_result) (now : Z)
    : list Order.t * http (list (string * pyval)) :=
  let o := new_order order_id user topic requirements order_type subject
             deadline volume files in
  match db with
  | WriteFails => (orders, Unhandled DatabaseError)
  | WriteCommits =>
      (orders ++ [Order.Build (Order.id o) (Order.user_id o) (Order.first_name o)
                    (Order.username o) (Order.phone_number o) (Order.type_label o)
                    (Order.order_type o) (Order.topic o) (Order.subject o)
                    (Order.deadline o) (Order.volume o) (Order.requirements o)
                    (Order.files o) (Order.price o) (Order.status o)
                    (PDateTime now) (PDateTime now) (Order.confirmed_at o)
                    (Order.manager_id o) (Order.notes o)],
       Http200 [("order_id", PInt (Order.id o))])
  end.

(** main.client_order_detail *)
Definition client_order_detail (orders : list Order.t) (order_id : Z)
    (user : User.t) : http (list (string * pyval)) :=
  match db_get_order orders order_id with
  | None => HTTPException 404 "Not found"
  | Some o =>
      if negb (bool_decide (Order.user_id o = Some (User.id user)))
      then HTTPException 404 "Not found"
      else Http200 (serialize_order o)
  end.

(** ** create_admin.py *)

(** create_admin.ensure_admin.  [hashed] is what [hash_password(password)]
    gave in this call (the hash is salted); the result is the action the
    script prints. *)
Definition ensure_admin (users : list User.t) (username password hashed : string)
    (db : db_result) : list User.t * res string :=
  match find (fun u => String.eqb (User.username u) username) users with
  | Some user =>
      match db with
      | DbFails => (users, Raise DatabaseError)
      | DbCommits _ _ =>
          let user' :=
            User.Build (User.id user) (User.username user) hashed (Some "admin")
              (User.email user) (User.telegram_id user) (User.created_at user) in
          ((fun u => if User.id u =? User.id user then user' else u) <$> users,
           Ok "updated")
      end
  | None =>
      match db with
      | DbFails => (users, Raise DatabaseError)
      | DbCommits new_id now =>
          (users ++ [User.Build new_id username hashed (Some "admin") None None
                       (PDateTime now)],
           Ok "created")
      end
  end.

(** ** The Flask version, flask_app.py *)

Module Flask.

(** What a route gives back: [jsonify(body), status], or an exception
    that leaves the route. *)
Inductive response : Type :=
  | Json (status_code : Z) (body : list (string * pyval))
  | Error500 (e : exn).

(** flask_app.send_message_to_user, for a request that passed
    [token_required(admin=True)]; [body] is [request.get_json(silent=True)],
    [None] when the request holds no JSON.  [user_id] and [order_id] go
    to the row as they come in the body. *)
Definition send_message_to_user (cast : Column.t -> pyval -> pyval)
    (rows : list Message.t) (body : pyval) (db : db_result)
    : list Message.t * response :=
  let data := if truthy body then body else PDict [] in
  let fields :=
    user_id ← py_get data "user_id" PNone;
    text ← (message ← py_get data "message" PNone;
            py_strip (if truthy message then message else PStr ""));
    order_id ← py_get data "order_id" PNone;
    mret (user_id, text, order_id) in
  match fields with
  | Raise e => (rows, Error500 e)
  | Ok (user_id, text, order_id) =>
      if negb (truthy user_id) || negb (truthy (PStr text))
      then (rows, Json 400 [("success", PBool false);
                            ("error", PStr "Missing user_id or message")])
      else
        let msg := new_Message user_id (PStr "admin") "out" text order_id in
        match db_add_commit cast rows msg db with
        | Raise e => (rows, Error500 e)
        | Ok (rows', _) => (rows', Json 200 [("success", PBool true)])
        end
  end.

End Flask.

(** ** Data of the concrete scenarios *)

(** A decoder with two good tokens. *)
Definition demo_decode (token : pyval) : option (list (string * pyval)) :=
  match token with
  | PStr s =>
      if String.eqb s "alice-token"
      then Some [("user_id", PInt 7); ("username", PStr "alice")]
      else if String.eqb s "bob-token"
      then Some [("user_id", PInt 8); ("username", PStr "bob")]
      else None
  | _ => None
  end.

(** A database whose text columns take the printed form of a value that
    is no string, and whose integer columns take the number a string of
    digits stands for. *)
Definition demo_cast (ty : Column.t) (v : pyval) : pyval :=
  match ty, v with
  | Column.BigInteger, PStr s =>
      if String.eqb s "7" then PInt 7
      else if String.eqb s "555" then PInt 555 else PNone
  | Column.BigInteger, _ => PNone
  | _, _ => PStr (str_scalar v)
  end.

Definition empty_world : world := World ∅ ∅ [].

Definition alice_auth : pyval := PDict [("token", PStr "alice-token")].
Definition bob_auth : pyval := PDict [("token", PStr "bob-token")].
Definition forged_auth : pyval := PDict [("token", PStr "forged")].
Definition alice_claims : list (string * pyval) :=
  [("user_id", PInt 7); ("username", PStr "alice")].

(** The connection [s1] is in the room of order 555. *)
Definition alice_world : world := Sio.enter_room empty_world "s1" "order_555".

(** The connections [s1] and [s2] are in the room of order 555, [s1]
    also in the room [user_7]. *)
Definition two_member_world : world :=
  Sio.enter_room (Sio.enter_room alice_world "s2" "order_555") "s1" "user_7".

Definition order_555 : list (string * pyval) := [("order_id", PInt 555)].

Definition status_request (client_message_id : pyval) : list (string * pyval) :=
  [("order_id", PInt 555); ("text", PStr "status?");
   ("client_message_id", client_message_id)].

Definition alice_user : User.t :=
  User.Build 7 "alice" "hash-a" (Some "client") (Some "alice@example.com") None
    (PDateTime 1).
Definition bob_user : User.t :=
  User.Build 8 "bob" "hash-b" (Some "client") (Some "bob@example.com") None
    (PDateTime 2).
Definition demo_users : list User.t := [alice_user; bob_user].

Definition order_555_row : Order.t :=
  new_order 555 alice_user "Essay" "Ten pages" PNone PNone PNone PNone [].
Definition demo_orders : list Order.t := [order_555_row].

(** U+00A0 (no-break space), U+0085 (next line) and U+2003 (em space),
    in UTF-8. *)
Definition no_break_space : string :=
  String (Ascii.ascii_of_N 194) (String (Ascii.ascii_of_N 160) "").
Definition next_line : string :=
  String (Ascii.ascii_of_N 194) (String (Ascii.ascii_of_N 133) "").
Definition em_space : string :=
  String (Ascii.ascii_of_N 226)
    (String (Ascii.ascii_of_N 128) (String (Ascii.ascii_of_N 131) "")).

(** A generator that always draws the lower bound. *)
Definition lowest (lo hi : Z) : Z := lo.

Section Handlers.

(** [jwt.decode(token, secret, algorithms=[alg])]: the claims of the
    token, or [None] when it raises. *)
Variable jwt_decode : pyval -> option (list (string * pyval)).

(** The text an f-string puts for a value. *)
Variable py_str : pyval -> string.

(** What a column of the database makes of a value that is not of its
    type, when it takes the value. *)
Variable sql_cast : Column.t -> pyval -> pyval.

Definition user_room (user_id : pyval) : string := "user_" +:+ py_str user_id.
Definition order_room (order_id : pyval) : string := "order_" +:+ py_str order_id.

(** main.send_message_to_user: the admin's HTTP endpoint, for a request
    that passed [get_current_admin].  The row is added and committed;
    the socket server is not used. *)
Definition send_message_to_user (w : world) (user_id : Z) (message : string)
    (order_id : option Z) (db : db_result) : effect :=
  let msg :=
    new_Message (PInt user_id) (PStr "admin") "out" message
                (from_option PInt PNone order_id) in
  match db_add_commit sql_cast (messages w) msg db with
  | Raise e => Effect w [] (Raised e)
  | Ok (rows, _) =>
      Effect {| sessions := sessions w; rooms := rooms w; messages := rows |}
             [] (Returned (PDict [("success", PBool true)]))
  end.

(** main.send_support_message: the text is stored as it comes. *)
Definition send_support_message (rows : list Message.t) (text : string)
    (user : User.t) (db : db_result)
    : list Message.t * http (list (string * pyval)) :=
  let m := new_Message (PInt (User.id user)) (PStr (User.username user))
             "in" text PNone in
  match db_add_commit sql_cast rows m db with
  | Raise e => (rows, Unhandled e)
  | Ok (rows', row) => (rows', Http200 (serialize_message row))
  end.

(** main.update_order, for a request that passed [get_current_admin]. *)
Definition update_order (orders : list Order.t)
    (history : list OrderStatusHistory.t)
    (order_id : Z) (payload : list (string * pyval)) (admin : User.t)
    (db : update_result)
    : (list Order.t * list OrderStatusHistory.t) * http (list (string * pyval)) :=
  match db_get_order orders order_id with
  | None => ((orders, history), HTTPException 404 "Order not found")
  | Some o =>
      let '(o, changed) := assign_allowed o payload in
      if changed then
        match db with
        | UpdateFails => ((orders, history), Unhandled DatabaseError)
        | UpdateCommits hist_id now updated_at =>
            let hist :=
              {| OrderStatusHistory.id := PInt hist_id;
                 OrderStatusHistory.order_id := order_id;
                 OrderStatusHistory.status :=
                   column sql_cast (Column.String 50) (Order.status o);
                 OrderStatusHistory.changed_by := User.id admin;
                 OrderStatusHistory.changed_at := PDateTime now;
                 OrderStatusHistory.notes :=
                   column sql_cast Column.Text
                     (default PNone (dict_get payload "notes")) |} in
            (((fun x => if Order.id x =? order_id
                        then with_updated_at (flush_order sql_cast payload o)
                               updated_at
                        else x) <$> orders,
              history ++ [hist]),
             Http200 [("success", PBool true)])
        end
      else ((orders, history), Http200 [("success", PBool true)])
  end.

(** asgi.connect.  The call of [save_session] in the last line is not
    awaited: the coroutine object is dropped and the registry is left as
    it is. *)
Definition connect (w : world) (sid : string) (environ auth : pyval) : effect :=
  let token :=
    match auth with
    | PDict d => default PNone (dict_get d "token")
    | _ => PNone
    end in
  if negb (truthy token) then Effect w [] (Returned (PBool false))
  else
    match jwt_decode token with
    | None => Effect w [] (Returned (PBool false))
    | Some claims =>
        let _ :=
          Coroutine
            (Sio.save_session w sid
               (Session (default PNone (dict_get claims "user_id"))
                        (default PNone (dict_get claims "username")))) in
        Effect w [] (Returned PNone)
    end.

(** asgi.disconnect *)
Definition disconnect (w : world) (sid : string) : effect := silent w.

(** asgi.join.  [sess] is the coroutine object of a call that is not
    awaited. *)
Definition join (w : world) (sid : string) (data : pyval) : effect :=
  let sess := Coroutine (Sio.get_session w sid) in
  if negb (coroutine_truthy sess) then silent w
  else
    match coroutine_getitem sess "user_id" with
    | Raise e => Effect w [] (Raised e)
    | Ok user_id =>
        Effect (Sio.enter_room w sid (user_room user_id)) [] (Returned PNone)
    end.

(** asgi.join_order_room *)
Definition join_order_room (w : world) (sid : string) (data : pyval) : effect :=
  let sess := Coroutine (Sio.get_session w sid) in
  if negb (coroutine_truthy sess) then silent w
  else
    let order_id :=
      match data with
      | PDict d => default PNone (dict_get d "order_id")
      | _ => PNone
      end in
    if negb (truthy order_id) then silent w
    else Effect (Sio.enter_room w sid (order_room order_id))
                [] (Returned PNone).

(** asgi.leave_order_room *)
Definition leave_order_room (w : world) (sid : string) (data : pyval) : effect :=
  let order_id :=
    match data with
    | PDict d => default PNone (dict_get d "order_id")
    | _ => PNone
    end in
  if negb (truthy order_id) then silent w
  else Effect (Sio.leave_room w sid (order_room order_id))
              [] (Returned PNone).

(** The [try: ... finally: db.close()] block shared by the two send
    handlers: build the row from [sess['user_id']] and
    [sess['username']], write it, serialize the written row, add the
    client's id when it is truthy, emit to the room.  [room] is the name
    of the room for the user id read from [sess]. *)
Definition persist_and_emit (w : world) (sess : coroutine (option session))
    (text : string) (order_id client_msg_id : pyval) (event : string)
    (room : pyval -> string) (db : db_result) : effect :=
  let identity :=
    user_id ← coroutine_getitem sess "user_id";
    username ← coroutine_getitem sess "username";
    mret (user_id, username) in
  match identity with
  | Raise e => Effect w [] (Raised e)
  | Ok (user_id, username) =>
      let msg := new_Message user_id username "in" text order_id in
      match db_add_commit sql_cast (messages w) msg db with
      | Raise e => Effect w [] (Raised e)
      | Ok (rows, row) =>
          let w' :=
            {| sessions := sessions w; rooms := rooms w; messages := rows |} in
          let payload := serialize_message row in
          let payload :=
            if truthy client_msg_id
            then dict_set payload "client_message_id" client_msg_id
            else payload in
          match Sio.emit w' event payload (room user_id) with
          | Raise e => Effect w' [] (Raised e)
          | Ok ds => Effect w' ds (Returned PNone)
          end
      end
  end.

(** asgi.send_message *)
Definition send_message (w : world) (sid : string) (data : pyval)
    (db : db_result) : effect :=
  let sess := Coroutine (Sio.get_session w sid) in
  if negb (coroutine_truthy sess) then silent w
  else
    let fields :=
      order_id ← py_get data "order_id" PNone;
      text ← py_get data "text" (PStr "") ≫= py_strip;
      client_msg_id ← py_get data "client_message_id" PNone;
      mret (order_id, text, client_msg_id) in
    match fields with
    | Raise e => Effect w [] (Raised e)
    | Ok (order_id, text, client_msg_id) =>
        if negb (truthy order_id) || negb (truthy (PStr text)) then silent w
        else persist_and_emit w sess text order_id client_msg_id
               "new_message" (fun _ => order_room order_id) db
    end.

(** asgi.send_user_message *)
Definition send_user_message (w : world) (sid : string) (data : pyval)
    (db : db_result) : effect :=
  let sess := Coroutine (Sio.get_session w sid) in
  if negb (coroutine_truthy sess) then silent w
  else
    let fields :=
      text ← py_get data "text" (PStr "") ≫= py_strip;
      client_msg_id ← py_get data "client_message_id" PNone;
      mret (text, client_msg_id) in
    match fields with
    | Raise e => Effect w [] (Raised e)
    | Ok (text, client_msg_id) =>
        if negb (truthy (PStr text)) then silent w
        else persist_and_emit w sess text PNone client_msg_id
               "new_support_message" user_room db
    end.

(** ** Events and runs *)

Inductive event : Type :=
  | EvConnect (sid : string) (environ auth : pyval)
  | EvJoin (sid : string) (data : pyval)
  | EvJoinOrderRoom (sid : string) (data : pyval)
  | EvLeaveOrderRoom (sid : string) (data : pyval)
  | EvSendMessage (sid : string) (data : pyval) (db : db_result)
  | EvSendUserMessage (sid : string) (data : pyval) (db : db_result)
  | EvSendMessageToUser (user_id : Z) (message : string)
      (order_id : option Z) (db : db_result).

Definition step (w : world) (e : event) : effect :=
  match e with
  | EvConnect sid environ auth => connect w sid environ auth
  | EvJoin sid data => join w sid data
  | EvJoinOrderRoom sid data => join_order_room w sid data
  | EvLeaveOrderRoom sid data => leave_order_room w sid data
  | EvSendMessage sid data db => send_message w sid data db
  | EvSendUserMessage sid data db => send_user_message w sid data db
  | EvSendMessageToUser user_id message order_id db =>
      send_message_to_user w user_id message order_id db
  end.

(** The world after a sequence of events, and everything sent on the way. *)
Fixpoint run (w : world) (es : list event) : world * list delivery :=
  match es with
  | [] => (w, [])
  | e :: es' =>
      let r := step w e in
      let '(w', ds) := run (after r) es' in
      (w', sent r ++ ds)
  end.

(** What one connection received. *)
Definition received (sid : string) (ds : list delivery) : list delivery :=
  filter (fun d => to_sid d = sid) ds.

(** The two addressing modes of a send over the socket. *)
Inductive scope : Type := OrderScoped | SupportScoped.

Definition socket_send (sc : scope) (w : world) (sid : string) (data : pyval)
    (db : db_result) : effect :=
  match sc with
  | OrderScoped => send_message w sid data db
  | SupportScoped => send_user_message w sid data db
  end.

(** ** Vocabulary of the properties *)

(** The credential a connection attempt carries, if any. *)
Definition supplied_token (auth : pyval) : option pyval :=
  match auth with
  | PDict d => dict_get d "token"
  | _ => None
  end.

(** Missing, or rejected by the verifier. *)
Definition bad_credential (auth : pyval) : Prop :=
  forall token, supplied_token auth = Some token -> jwt_decode token = None.

(** A token the verifier accepts, with the claims it carries. *)
Definition good_credential (auth : pyval) (claims : list (string * pyval))
    : Prop :=
  exists token,
    supplied_token auth = Some token /\ truthy token = true /\
    jwt_decode token = Some claims.

(** Every connection attempt of [sid] among the events is a bad one. *)
Definition never_authenticates (sid : string) (e : event) : Prop :=
  match e with
  | EvConnect sid' _ auth => sid' = sid -> bad_credential auth
  | _ => True
  end.

(** A payload without the field [k] (absent, null, or no dict at all). *)
Definition lacks (data : pyval) (k : string) : Prop :=
  match data with
  | PDict d => dict_get d k = None \/ dict_get d k = Some PNone
  | _ => True
  end.

(** A payload whose text is absent (also when it is no dict at all),
    empty or only whitespace. *)
Definition blank_text (data : pyval) : Prop :=
  match data with
  | PDict d =>
      match dict_get d "text" with
      | None => True
      | Some (PStr s) => strip s = ""
      | Some _ => False
      end
  | _ => True
  end.

(** A dict payload whose text, when present, is a string. *)
Definition text_is_str (data : pyval) : Prop :=
  match data with
  | PDict d =>
      match dict_get d "text" with
      | None | Some (PStr _) => True
      | Some _ => False
      end
  | _ => False
  end.

Definition malformed (e : event) : Prop :=
  match e with
  | EvJoinOrderRoom _ data | EvLeaveOrderRoom _ data => lacks data "order_id"
  | EvSendMessage _ data _ => lacks data "order_id" \/ blank_text data
  | EvSendUserMessage _ data _ => blank_text data
  | _ => False
  end.

Definition well_typed_text (e : event) : Prop :=
  match e with
  | EvSendMessage _ data _ | EvSendUserMessage _ data _ => text_is_str data
  | _ => True
  end.


(** Join and leave requests on one order room, and what they should do
    to the set of its members. *)
Inductive room_op : Type :=
  | DoJoin (sid : string)
  | DoLeave (sid : string).

Definition apply_op (members : gset string) (op : room_op) : gset string :=
  match op with
  | DoJoin sid => {[sid]} ∪ members
  | DoLeave sid => members ∖ {[sid]}
  end.

(** The same requests, made to the room index directly. *)
Definition index_op (room : string) (w : world) (op : room_op) : world :=
  match op with
  | DoJoin sid => Sio.enter_room w sid room
  | DoLeave sid => Sio.leave_room w sid room
  end.

Definition op_event (data : pyval) (op : room_op) : event :=
  match op with
  | DoJoin sid => EvJoinOrderRoom sid data
  | DoLeave sid => EvLeaveOrderRoom sid data
  end.

(** The events that write to the table of messages. *)
Definition is_send (e : event) : bool :=
  match e with
  | EvSendMessage _ _ _ | EvSendUserMessage _ _ _
  | EvSendMessageToUser _ _ _ _ => true
  | _ => false
  end.


(** A join or a leave issued by [sid] itself. *)
Definition own_join_or_leave (sid : string) (e : event) : Prop :=
  match e with
  | EvJoin sid' _ | EvJoinOrderRoom sid' _ | EvLeaveOrderRoom sid' _ => sid' = sid
  | _ => False
  end.

(** The columns of an order other than [status], [notes] and
    [updated_at]. *)
Definition other_columns (o : Order.t) :=
  (Order.id o, Order.user_id o, Order.first_name o, Order.username o,
   Order.phone_number o, Order.type_label o, Order.order_type o,
   Order.topic o, Order.subject o, Order.deadline o, Order.volume o,
   Order.requirements o, Order.files o, Order.price o, Order.created_at o,
   Order.confirmed_at o, Order.manager_id o).

(** The value of a column after an assignment of [v], or the stored one
    when nothing was assigned. *)
Definition written (ty : Column.t) (stored : pyval) (given : option pyval)
    : pyval :=
  match given with
  | Some v => column sql_cast ty v
  | None => stored
  end.

(** The name and the address a profile has after [update_profile]: the
    ones given when given and not empty, the old ones otherwise. *)
Definition new_username (username : option string) (user : User.t) : string :=
  match username with
  | Some name => if String.eqb name "" then User.username user else name
  | None => User.username user
  end.

Definition new_email (email : option string) (user : User.t) : option string :=
  match email with
  | Some mail => if String.eqb mail "" then User.email user else Some mail
  | None => User.email user
  end.

Definition profile_after (username email : option string) (user : User.t)
    : User.t :=
  User.Build (User.id user) (new_username username user)
    (User.password_hash user) (User.role user) (new_email email user)
    (User.telegram_id user) (User.created_at user).

(** ** Text *)

Lemma leading_space_shorter s rest :
  leading_space s = Some rest -> (String.length rest < String.length s)%nat.
Proof.
  destruct s as [|c0 [|c1 [|c2 s3]]]; simpl; try done.
  - destruct (is_space _); [|done]. intros [= <-]. simpl. lia.
  - destruct (is_space (utf8_1 _)); [intros [= <-]; simpl; lia|].
    destruct (is_space _); [|done]. intros [= <-]. simpl. lia.
  - destruct (is_space (utf8_1 _)); [intros [= <-]; simpl; lia|].
    destruct (is_space (utf8_2 _ _)); [intros [= <-]; simpl; lia|].
    destruct (is_space _); [|done]. intros [= <-]. simpl. lia.
Qed.

Lemma drop_spaces_done next fuel : forall s,
  (forall s rest, next s = Some rest ->
                  (String.length rest < String.length s)%nat) ->
  (String.length s <= fuel)%nat ->
  next (drop_spaces next fuel s) = None.
Proof.
  induction fuel as [|fuel IH]; intros s Hnext Hlen; simpl.
  - destruct (next s) as [rest|] eqn:E; [|done].
    apply Hnext in E. lia.
  - destruct (next s) as [rest|] eqn:E; [|done].
    apply IH; [done|]. apply Hnext in E. lia.
Qed.

(** The fuel of [lstrip] is enough: what it returns begins with no
    whitespace character. *)
Lemma lstrip_done s : leading_space (lstrip s) = None.
Proof.
  unfold lstrip. apply drop_spaces_done; [apply leading_space_shorter|done].
Qed.

(** ** The room index *)

Lemma members_enter_room w sid room r :
  Sio.members (Sio.enter_room w sid room) r =
  if decide (r = room) then {[sid]} ∪ Sio.members w room else Sio.members w r.
Proof.
  unfold Sio.members, Sio.enter_room; simpl.
  case_decide as E.
  - subst. by rewrite lookup_insert_eq.
  - by rewrite lookup_insert_ne.
Qed.

Lemma members_leave_room w sid room r :
  Sio.members (Sio.leave_room w sid room) r =
  if decide (r = room) then Sio.members w room ∖ {[sid]} else Sio.members w r.
Proof.
  unfold Sio.members, Sio.leave_room.
  destruct (rooms w !! room) as [sids|] eqn:E.
  - destruct (decide (sid ∈ sids)) as [Hin|Hnin]; simpl.
    + destruct (decide (sids ∖ {[sid]} = ∅)) as [He|Hne]; case_decide as Er; subst.
      * by rewrite lookup_delete_eq, He.
      * by rewrite lookup_delete_ne.
      * by rewrite lookup_insert_eq.
      * by rewrite lookup_insert_ne.
    + case_decide as Er; subst; [|done].
      rewrite E; simpl. set_solver.
  - case_decide as Er; subst; [|done].
    rewrite E; simpl. set_solver.
Qed.

Lemma sessions_leave_room w sid room :
  sessions (Sio.leave_room w sid room) = sessions w.
Proof.
  unfold Sio.leave_room.
  destruct (rooms w !! room); [|done]. by case_decide.
Qed.

Lemma messages_leave_room w sid room :
  messages (Sio.leave_room w sid room) = messages w.
Proof.
  unfold Sio.leave_room.
  destruct (rooms w !! room); [|done]. by case_decide.
Qed.

(** Entering a room one is in, and leaving a room one is not in, leave
    the whole world as it was. *)
Lemma enter_room_member w sid room :
  sid ∈ Sio.members w room -> Sio.enter_room w sid room = w.
Proof.
  unfold Sio.enter_room, Sio.members. intros Hin.
  destruct w as [ss rs ms]; simpl in *. f_equal.
  destruct (rs !! room) as [sids|] eqn:E; simpl in *.
  - apply insert_id. rewrite E. f_equal. symmetry.
    apply subseteq_union_1_L. by apply singleton_subseteq_l.
  - by apply not_elem_of_empty in Hin.
Qed.

Lemma leave_room_not_member w sid room :
  sid ∉ Sio.members w room -> Sio.leave_room w sid room = w.
Proof.
  unfold Sio.members, Sio.leave_room. intros Hnin.
  destruct (rooms w !! room) as [sids|] eqn:E; simpl in *; [|done].
  by rewrite decide_False.
Qed.

(** ** The handlers, one by one *)

Lemma connect_bad w sid environ auth :
  bad_credential auth ->
  connect w sid environ auth = Effect w [] (Returned (PBool false)).
Proof.
  unfold bad_credential, supplied_token, connect. intros Hbad.
  destruct auth as [| | | | |l|d]; simpl; try done.
  destruct (dict_get d "token") as [token|] eqn:Ht; simpl; [|done].
  destruct (truthy token); simpl; [|done].
  by rewrite (Hbad token).
Qed.

Lemma connect_good w sid environ auth claims :
  good_credential auth claims ->
  connect w sid environ auth = Effect w [] (Returned PNone).
Proof.
  unfold good_credential, supplied_token, connect.
  intros (token & Ht & Htruthy & Hdec).
  destruct auth as [| | | | |l|d]; simpl; try done.
  by rewrite Ht; simpl; rewrite Htruthy, Hdec.
Qed.

(** [connect] answers and touches nothing. *)
Lemma connect_world w sid environ auth :
  after (connect w sid environ auth) = w /\
  sent (connect w sid environ auth) = [].
Proof.
  unfold connect. destruct (negb _); [done|]. by destruct (jwt_decode _).
Qed.


(** The block that builds, writes and emits the row stops at its first
    step, the subscript [sess['user_id']]. *)
Lemma persist_and_emit_raises w sess text order_id cid ev room db :
  persist_and_emit w sess text order_id cid ev room db
  = Effect w [] (Raised TypeError).
Proof. reflexivity. Qed.

(** A send ends in one of three ways, and in none of them has it
    changed the world or sent anything: it returns at a check, it
    raises [AttributeError] at [data.get] or [.strip], or it raises
    [TypeError] at [sess['user_id']]. *)
Lemma socket_send_cases sc w sid data db :
  exists r,
    socket_send sc w sid data db = Effect w [] r /\
    (r = Returned PNone \/ r = Raised AttributeError \/ r = Raised TypeError).
Proof.
  destruct sc; unfold socket_send, send_message, send_user_message; simpl.
  - destruct data as [| | | | |l|d]; simpl; try (eexists; split; [done|]; tauto).
    destruct (default (PStr "") (dict_get d "text")) as [| | |s| | |]; simpl;
      try (eexists; split; [done|]; tauto).
    destruct (negb _ || negb _); eexists; (split; [done|]); tauto.
  - destruct data as [| | | | |l|d]; simpl; try (eexists; split; [done|]; tauto).
    destruct (default (PStr "") (dict_get d "text")) as [| | |s| | |]; simpl;
      try (eexists; split; [done|]; tauto).
    destruct (negb _); eexists; (split; [done|]); tauto.
Qed.

Lemma socket_send_world sc w sid data db :
  after (socket_send sc w sid data db) = w /\
  sent (socket_send sc w sid data db) = [].
Proof. by destruct (socket_send_cases sc w sid data db) as (r & -> & _). Qed.

Lemma send_message_world w sid data db :
  after (send_message w sid data db) = w /\
  sent (send_message w sid data db) = [].
Proof. apply (socket_send_world OrderScoped). Qed.

Lemma send_user_message_world w sid data db :
  after (send_user_message w sid data db) = w /\
  sent (send_user_message w sid data db) = [].
Proof. apply (socket_send_world SupportScoped). Qed.

(** A send whose payload passes the checks gets as far as the row. *)
Lemma socket_send_passes sc w sid d s db :
  dict_get d "text" = Some (PStr s) -> strip s <> "" ->
  (sc = OrderScoped -> truthy (default PNone (dict_get d "order_id")) = true) ->
  socket_send sc w sid (PDict d) db = Effect w [] (Raised TypeError).
Proof.
  intros Ht Hs Ho.
  destruct sc; unfold socket_send, send_message, send_user_message; simpl;
    rewrite Ht; simpl.
  - rewrite Ho by done. simpl.
    destruct (String.eqb_spec (strip s) "") as [|_]; done.
  - destruct (String.eqb_spec (strip s) "") as [|_]; done.
Qed.

Lemma send_message_to_user_frame w user_id message order_id db :
  sessions (after (send_message_to_user w user_id message order_id db)) = sessions w /\
  rooms (after (send_message_to_user w user_id message order_id db)) = rooms w /\
  sent (send_message_to_user w user_id message order_id db) = [].
Proof. by destruct db. Qed.

(** ** What one event can do *)

(** No event sends anything to anybody. *)
Lemma step_sent w e : sent (step w e) = [].
Proof.
  destruct e as [sid environ auth|sid data|sid data|sid data
                |sid data db|sid data db|user_id message order_id db]; simpl.
  - apply connect_world.
  - done.
  - unfold join_order_room; simpl. by destruct (negb _).
  - unfold leave_order_room. by destruct (negb _).
  - apply send_message_world.
  - apply send_user_message_world.
  - apply send_message_to_user_frame.
Qed.

(** No event writes to the session registry. *)
Lemma step_sessions w e : sessions (after (step w e)) = sessions w.
Proof.
  destruct e as [sid environ auth|sid data|sid data|sid data
                |sid data db|sid data db|user_id message order_id db]; simpl.
  - by destruct (connect_world w sid environ auth) as [-> _].
  - done.
  - unfold join_order_room; simpl. by destruct (negb _).
  - unfold leave_order_room. destruct (negb _); [done|]. apply sessions_leave_room.
  - by destruct (send_message_world w sid data db) as [-> _].
  - by destruct (send_user_message_world w sid data db) as [-> _].
  - apply send_message_to_user_frame.
Qed.

Lemma step_messages w e :
  messages (after (step w e)) = messages w \/
  (is_send e = true /\ exists row, messages (after (step w e)) = messages w ++ [row]).
Proof.
  destruct e as [sid environ auth|sid data|sid data|sid data
                |sid data db|sid data db|user_id message order_id db]; simpl.
  - left. by destruct (connect_world w sid environ auth) as [-> _].
  - by left.
  - left. unfold join_order_room; simpl. by destruct (negb _).
  - left. unfold leave_order_room. destruct (negb _); [done|].
    apply messages_leave_room.
  - left. by destruct (send_message_world w sid data db) as [-> _].
  - left. by destruct (send_user_message_world w sid data db) as [-> _].
  - destruct db; [by left|]. right. split; [done|]. by eexists.
Qed.



(** ** Runs *)

Lemma run_cons w e es :
  run w (e :: es) = ((run (after (step w e)) es).1,
                     sent (step w e) ++ (run (after (step w e)) es).2).
Proof. simpl. by destruct (run (after (step w e)) es). Qed.

Lemma run_sent es : forall w, (run w es).2 = [].
Proof.
  induction es as [|e es IH]; intros w; [done|].
  rewrite run_cons. simpl. by rewrite step_sent, IH.
Qed.

Lemma run_sessions es : forall w, sessions (run w es).1 = sessions w.
Proof.
  induction es as [|e es IH]; intros w; [done|].
  rewrite run_cons. simpl. by rewrite IH, step_sessions.
Qed.


(** ** Sends *)

(** C1.  A send that passes the checks of its handler (a dict whose
    text is a string with more than whitespace in it and, for an
    order-scoped send, a truthy order id) raises [TypeError] where the
    row is built, at [sess['user_id']], before the database is asked
    anything: whatever the database would answer, the world is as
    before, so no row is stored, and nothing is sent. *)
Theorem accepted_send_stores_nothing sc w sid d s db :
  dict_get d "text" = Some (PStr s) -> strip s <> "" ->
  (sc = OrderScoped -> truthy (default PNone (dict_get d "order_id")) = true) ->
  result (socket_send sc w sid (PDict d) db) = Raised TypeError /\
  messages (after (socket_send sc w sid (PDict d) db)) = messages w /\
  sent (socket_send sc w sid (PDict d) db) = [].
Proof.
  intros Ht Hs Ho. by rewrite (socket_send_passes sc w sid d s db).
Qed.

(** ** Admission *)

(** C2.  A connection attempt whose token is missing or is rejected by
    the verifier is refused ([connect] returns [False]): the world is
    unchanged, nothing is sent, and as long as that connection presents
    no good credential it has no session and is sent nothing, whatever
    events follow. *)
Theorem bad_credential_refused w sid environ auth :
  bad_credential auth ->
  connect w sid environ auth = Effect w [] (Returned (PBool false)) /\
  forall es,
    Forall (never_authenticates sid) es ->
    Sio.get_session w sid = None ->
    (forall r, sid ∉ Sio.members w r) ->
    Sio.get_session (run w (EvConnect sid environ auth :: es)).1 sid = None /\
    received sid (run w (EvConnect sid environ auth :: es)).2 = [].
Proof.
  intros Hbad. split; [by apply connect_bad|].
  intros es Hes Hs Hout. split.
  - unfold Sio.get_session in *. by rewrite run_sessions.
  - by rewrite run_sent.
Qed.

(** C4 (as the code has it).  A successful [connect] admits the
    connection and enters it in no room: the rooms are what they were,
    no message is stored and nothing is sent. *)
Theorem connect_admits_without_joining w sid environ auth claims :
  good_credential auth claims ->
  result (connect w sid environ auth) = Returned PNone /\
  rooms (after (connect w sid environ auth)) = rooms w /\
  messages (after (connect w sid environ auth)) = messages w /\
  sent (connect w sid environ auth) = [].
Proof. intros Hgood. by rewrite (connect_good _ _ _ _ _ Hgood). Qed.

(** C5.  A [connect] with a good token admits the connection, and a
    [join_order_room] that follows with an order id the payload holds
    and Python takes for true puts the connection in the room
    [order_<o>]; the ids [generate_order_id] gives to orders, numbers
    from 10^8 to 10^9 - 1, are all such.  A [connect] with a missing or
    rejected token is refused and leaves the world, hence the sessions,
    as they were. *)
Theorem connect_then_join_order_room w sid environ auth claims :
  good_credential auth claims ->
  result (connect w sid environ auth) = Returned PNone /\
  (forall d o,
     dict_get d "order_id" = Some o -> truthy o = true ->
     sid ∈ Sio.members
             (after (join_order_room (after (connect w sid environ auth))
                       sid (PDict d)))
             (order_room o)) /\
  (forall randint d,
     (forall lo hi, lo <= hi -> lo <= randint lo hi <= hi) ->
     dict_get d "order_id" = Some (PInt (generate_order_id randint)) ->
     sid ∈ Sio.members
             (after (join_order_room (after (connect w sid environ auth))
                       sid (PDict d)))
             (order_room (PInt (generate_order_id randint)))) /\
  forall auth',
    bad_credential auth' ->
    result (connect w sid environ auth') = Returned (PBool false) /\
    after (connect w sid environ auth') = w.
Proof.
  intros Hgood.
  assert (Hjoin : forall d o,
     dict_get d "order_id" = Some o -> truthy o = true ->
     sid ∈ Sio.members
             (after (join_order_room (after (connect w sid environ auth))
                       sid (PDict d)))
             (order_room o)).
  { intros d o Hd Ho. rewrite (connect_good _ _ _ _ _ Hgood); simpl.
    unfold join_order_room; simpl. rewrite Hd; simpl. rewrite Ho; simpl.
    rewrite members_enter_room, decide_True by done.
    apply elem_of_union_l. by apply elem_of_singleton. }
  split; [by rewrite (connect_good _ _ _ _ _ Hgood)|].
  split; [done|]. split.
  - intros randint d Hrand Hd. apply Hjoin; [done|].
    unfold generate_order_id. simpl.
    specialize (Hrand (10 ^ 8) (10 ^ 9 - 1)).
    destruct (Z.eqb_spec (randint (10 ^ 8) (10 ^ 9 - 1)) 0) as [E|]; [|done].
    rewrite E in Hrand. lia.
  - intros auth' Hbad. by rewrite connect_bad.
Qed.

(** C3.  Nobody receives anything from a send, member of the room it
    goes to or not: what any connection gets of what the send has sent
    is nothing, whatever the payload and whatever the database
    answers. *)
Theorem send_reaches_no_member sc w sid data db :
  forall c, received c (sent (socket_send sc w sid data db)) = [].
Proof.
  intros c. by destruct (socket_send_world sc w sid data db) as [_ ->].
Qed.

(** ** Malformed requests *)

Lemma lacks_default d k : lacks (PDict d) k -> default PNone (dict_get d k) = PNone.
Proof. by intros [->| ->]. Qed.

(** C6.  A [join_order_room], [leave_order_room] or order-scoped send
    without an order id, and a send whose text is absent, empty or only
    whitespace, change nothing and send nothing: no row is written,
    sessions and rooms are as before, no event goes to anyone.  The
    handler returns [None], unless the payload of a send is not a dict
    or its text is not a string, in which case it raises instead. *)
Theorem malformed_request_is_dropped w e :
  malformed e ->
  after (step w e) = w /\
  sent (step w e) = [] /\
  (well_typed_text e -> result (step w e) = Returned PNone).
Proof.
  destruct e as [sid environ auth|sid data|sid data|sid data
                |sid data db|sid data db|user_id message order_id db];
    simpl; try done.
  - intros Hl. unfold join_order_room; simpl.
    destruct data as [| | | | |l|d]; simpl; try done.
    by rewrite (lacks_default _ _ Hl).
  - intros Hl. unfold leave_order_room.
    destruct data as [| | | | |l|d]; simpl; try done.
    by rewrite (lacks_default _ _ Hl).
  - intros Hm. unfold send_message; simpl.
    destruct data as [| | | | |l|d]; simpl; try done;
      try (destruct Hm as [_|[]]; done).
    unfold blank_text, text_is_str in *.
    destruct (dict_get d "text") as [[| | |txt| | |]|] eqn:Ht; simpl; try done.
    + destruct Hm as [Hl|Hb].
      * by rewrite (lacks_default _ _ Hl).
      * rewrite Hb. simpl. by rewrite orb_true_r.
    + by rewrite orb_true_r.
  - intros Hm. unfold send_user_message; simpl.
    destruct data as [| | | | |l|d]; simpl; try done.
    unfold blank_text, text_is_str in *.
    destruct (dict_get d "text") as [[| | |txt| | |]|] eqn:Ht; simpl; try done.
    by rewrite Hm.
Qed.

(** ** Join and leave *)

Lemma join_order_room_enters w sid d o :
  dict_get d "order_id" = Some o -> truthy o = true ->
  after (join_order_room w sid (PDict d)) = Sio.enter_room w sid (order_room o).
Proof.
  intros Hd Ho. unfold join_order_room; simpl. rewrite Hd; simpl. by rewrite Ho.
Qed.

Lemma leave_order_room_leaves w sid d o :
  dict_get d "order_id" = Some o -> truthy o = true ->
  after (leave_order_room w sid (PDict d)) = Sio.leave_room w sid (order_room o).
Proof.
  intros Hd Ho. unfold leave_order_room. rewrite Hd; simpl. by rewrite Ho.
Qed.

Lemma run_ops_members d o ops : forall w,
  dict_get d "order_id" = Some o -> truthy o = true ->
  Sio.members (run w (op_event (PDict d) <$> ops)).1 (order_room o) =
  foldl apply_op (Sio.members w (order_room o)) ops.
Proof.
  induction ops as [|op ops IH]; intros w Hd Ho; [done|].
  rewrite fmap_cons, run_cons. simpl. rewrite IH by done.
  f_equal. destruct op as [c|c]; simpl.
  - rewrite (join_order_room_enters w c d o) by done.
    by rewrite members_enter_room, decide_True.
  - rewrite (leave_order_room_leaves w c d o) by done.
    by rewrite members_leave_room, decide_True.
Qed.

Lemma index_ops_members room ops : forall w,
  Sio.members (foldl (index_op room) w ops) room =
  foldl apply_op (Sio.members w room) ops.
Proof.
  induction ops as [|op ops IH]; intros w; [done|]. simpl.
  rewrite IH. f_equal. destruct op as [c|c]; simpl.
  - by rewrite members_enter_room, decide_True.
  - by rewrite members_leave_room, decide_True.
Qed.

(** C8.  For every room and connection: entering a room the connection
    is already in leaves the world unchanged; leaving a room it is not
    in leaves the world unchanged; after any sequence of joins and
    leaves on the room its members are the initial members with every
    join added and every leave removed, in order, as sets.  The
    handlers [join_order_room] and [leave_order_room] are these
    operations on the room [order_<o>] of the order id [o] they are
    given (a truthy one), for any connection, so the same holds of
    sequences of these requests. *)
Theorem join_leave_idempotent w room :
  (forall sid, sid ∈ Sio.members w room -> Sio.enter_room w sid room = w) /\
  (forall sid, sid ∉ Sio.members w room -> Sio.leave_room w sid room = w) /\
  (forall ops,
     Sio.members (foldl (index_op room) w ops) room =
     foldl apply_op (Sio.members w room) ops) /\
  (forall d o,
     dict_get d "order_id" = Some o -> truthy o = true -> room = order_room o ->
     (forall sid,
        after (join_order_room w sid (PDict d)) = Sio.enter_room w sid room) /\
     (forall sid,
        after (leave_order_room w sid (PDict d)) = Sio.leave_room w sid room) /\
     (forall ops,
        Sio.members (run w (op_event (PDict d) <$> ops)).1 room =
        foldl apply_op (Sio.members w room) ops)).
Proof.
  split; [|split; [|split]].
  - intros sid. apply enter_room_member.
  - intros sid. apply leave_room_not_member.
  - intros ops. apply index_ops_members.
  - intros d o Hd Ho ->. split; [|split].
    + intros sid. by apply join_order_room_enters.
    + intros sid. by apply leave_order_room_leaves.
    + intros ops. by apply run_ops_members.
Qed.

(** ** Staff messages *)


(** ** Identity *)


(** ** What the handlers never do *)

(** X1.  The table of messages is append-only: after any sequence of
    socket events and staff messages the rows that were stored are
    still there, unchanged and in place, followed by the rows added; at
    most one row is added per send event, none by any other event. *)
Theorem messages_append_only es : forall w,
  exists added,
    messages (run w es).1 = messages w ++ added /\
    (length added <= length (filter (fun e => is_send e = true) es))%nat.
Proof.
  induction es as [|e es IH]; intros w; simpl.
  - exists []. by rewrite app_nil_r.
  - destruct (run (after (step w e)) es) as [w' ds] eqn:Hrun; simpl.
    destruct (IH (after (step w e))) as (added & Hadd & Hlen).
    rewrite Hrun in Hadd; simpl in Hadd. rewrite filter_cons.
    destruct (step_messages w e) as [Hsame | (Hsend & row & Hrow)].
    + exists added. rewrite Hadd, Hsame. split; [done|].
      case_decide; simpl; lia.
    + exists (row :: added). rewrite Hadd, Hrow, <- app_assoc. split; [done|].
      rewrite decide_True by done. simpl. lia.
Qed.


(** X3.  Nobody is put in a room or taken out of one by somebody else:
    an event changes whether a connection is in a room only when it is
    a [join], [join_order_room] or [leave_order_room] issued by that
    very connection. *)
Theorem membership_changes_only_by_own_request w e c r :
  (c ∈ Sio.members (after (step w e)) r <-> c ∈ Sio.members w r) \/
  own_join_or_leave c e.
Proof.
  destruct e as [sid environ auth|sid data|sid data|sid data
                |sid data db|sid data db|user_id message order_id db]; simpl.
  - left. by destruct (connect_world w sid environ auth) as [-> _].
  - by left.
  - destruct (decide (sid = c)) as [->|Hne]; [by right|left].
    unfold join_order_room; simpl. destruct (negb _); [done|]. simpl.
    rewrite members_enter_room. case_decide; [|done]. subst. set_solver.
  - destruct (decide (sid = c)) as [->|Hne]; [by right|left].
    unfold leave_order_room. destruct (negb _); [done|]. simpl.
    rewrite members_leave_room. case_decide; [|done]. subst. set_solver.
  - left. by destruct (send_message_world w sid data db) as [-> _].
  - left. by destruct (send_user_message_world w sid data db) as [-> _].
  - left. destruct (send_message_to_user_frame w user_id message order_id db)
      as (_ & Hr & _).
    unfold Sio.members. by rewrite Hr.
Qed.

(** ** The history endpoints *)

Lemma col_eq_int_true v n : col_eq_int v n = true <-> v = PInt n.
Proof.
  destruct v; simpl; try (split; [done|by intros [=]]).
  rewrite Z.eqb_eq. split; [by intros ->|by intros [=]].
Qed.

Lemma col_is_null_true v : col_is_null v = true <-> v = PNone.
Proof. by destruct v. Qed.

#[local] Instance created_before_total : Total created_before.
Proof.
  intros a b. unfold created_before.
  destruct (created_key a), (created_key b); try tauto. lia.
Qed.

Lemma elem_of_order_by m rows :
  m ∈ order_by_created_at_asc rows <-> m ∈ rows.
Proof. unfold order_by_created_at_asc. by rewrite merge_sort_Permutation. Qed.

Lemma length_order_by rows : length (order_by_created_at_asc rows) = length rows.
Proof. unfold order_by_created_at_asc. by rewrite merge_sort_Permutation. Qed.

Lemma sorted_order_by rows : Sorted created_before (order_by_created_at_asc rows).
Proof. apply (Sorted_merge_sort _). Qed.

Lemma elem_of_support_messages p rows user :
  p ∈ support_messages rows user <->
  exists m, p = serialize_message m /\ m ∈ rows /\
            Message.user_id m = PInt (User.id user) /\
            Message.order_id m = PNone.
Proof.
  unfold support_messages. rewrite list_elem_of_fmap.
  split.
  - intros (m & -> & Hm). exists m. split; [done|].
    apply elem_of_order_by, list_elem_of_filter in Hm as [Hp Hin].
    apply Is_true_true, andb_true_iff in Hp as [H1 H2].
    by apply col_eq_int_true in H1; apply col_is_null_true in H2.
  - intros (m & -> & Hin & Hu & Ho). exists m. split; [done|].
    apply elem_of_order_by, list_elem_of_filter. split; [|done].
    apply Is_true_true, andb_true_iff.
    by split; [apply col_eq_int_true|apply col_is_null_true].
Qed.

(** X9.  [send_support_message] stores the text as it comes, blank or
    not, with direction [in], and what it returns is then an entry of
    the sender's [support_messages]; the entries that were there before
    are all still there. *)
Theorem support_message_round_trip rows text user new_id now :
  exists p,
    (send_support_message rows text user (DbCommits new_id now)).2 = Http200 p /\
    dict_get p "text" = Some (PStr text) /\
    dict_get p "direction" = Some (PStr "in") /\
    p ∈ support_messages
          (send_support_message rows text user (DbCommits new_id now)).1 user /\
    forall q, q ∈ support_messages rows user ->
      q ∈ support_messages
            (send_support_message rows text user (DbCommits new_id now)).1 user.
Proof.
  eexists. simpl. split; [done|]. split; [done|]. split; [done|]. split.
  - apply elem_of_support_messages. eexists. split; [done|].
    split; [|done]. apply elem_of_app. right. by left.
  - intros q (m & -> & Hin & Hu & Ho)%elem_of_support_messages.
    apply elem_of_support_messages. exists m.
    repeat split; try done. apply elem_of_app. by left.
Qed.

(** X10.  [support_messages] shows a user the support rows of that user
    and nothing else: every entry is the serialization of a stored row
    with that user's id and no order id, every such row is shown, and
    the rows come by ascending [created_at]. *)
Theorem support_messages_are_own rows user :
  (forall p, p ∈ support_messages rows user <->
     exists m, p = serialize_message m /\ m ∈ rows /\
               Message.user_id m = PInt (User.id user) /\
               Message.order_id m = PNone) /\
  exists ms,
    support_messages rows user = serialize_message <$> ms /\
    Sorted created_before ms /\
    (length ms <= length rows)%nat.
Proof.
  split; [intros p; apply elem_of_support_messages|].
  eexists. split; [done|]. split; [apply sorted_order_by|].
  rewrite length_order_by. apply length_filter.
Qed.

Lemma db_get_order_Some orders order_id o :
  db_get_order orders order_id = Some o -> o ∈ orders /\ Order.id o = order_id.
Proof.
  unfold db_get_order. intros [Hin Heq]%find_some.
  split; [by apply list_elem_of_In|]. by apply Z.eqb_eq.
Qed.

(** X14.  [client_order_messages] answers with messages only to the
    owner of an existing order, and otherwise raises 404 "Not found";
    what the owner gets are the serializations of exactly the stored
    rows that carry this order id. *)
Theorem client_order_messages_owner_only orders rows order_id user :
  match client_order_messages orders rows order_id user with
  | Http200 ps =>
      (exists o, db_get_order orders order_id = Some o /\
                 Order.user_id o = Some (User.id user)) /\
      forall p, p ∈ ps <->
        exists m, p = serialize_message m /\ m ∈ rows /\
                  Message.order_id m = PInt order_id
  | HTTPException code detail =>
      code = 404 /\ detail = "Not found" /\
      (forall o, db_get_order orders order_id = Some o ->
         Order.user_id o <> Some (User.id user))
  | Unhandled _ => False
  end.
Proof.
  unfold client_order_messages.
  destruct (db_get_order orders order_id) as [o|] eqn:Ho; [|done].
  destruct (bool_decide (Order.user_id o = Some (User.id user))) eqn:Hb; simpl.
  - apply bool_decide_eq_true in Hb. split; [by exists o|].
    intros p. rewrite list_elem_of_fmap. split.
    + intros (m & -> & Hm). exists m. split; [done|].
      apply elem_of_order_by, list_elem_of_filter in Hm as [Hp Hin].
      by apply Is_true_true, col_eq_int_true in Hp.
    + intros (m & -> & Hin & Hm). exists m. split; [done|].
      apply elem_of_order_by, list_elem_of_filter. split; [|done].
      by apply Is_true_true, col_eq_int_true.
  - apply bool_decide_eq_false in Hb. repeat split; try done. by intros ? [= <-].
Qed.

(** X15.  [admin_messages] never shows a row that carries an order id
    and never more than 2000 rows; with a non-zero [user_id] it shows
    rows of that user only, and [user_id = 0] is taken as no [user_id]
    at all. *)
Theorem admin_messages_support_only rows user_id :
  admin_messages rows (Some 0) = admin_messages rows None /\
  (length (admin_messages rows user_id) <= 2000)%nat /\
  forall p, p ∈ admin_messages rows user_id ->
    exists m, p = serialize_message m /\ m ∈ rows /\
              Message.order_id m = PNone /\
              forall n, user_id = Some n -> n <> 0 ->
                        Message.user_id m = PInt n.
Proof.
  split; [done|]. split.
  - unfold admin_messages. rewrite length_fmap, length_take. lia.
  - unfold admin_messages. intros p (m & -> & Hm)%list_elem_of_fmap.
    exists m. split; [done|].
    apply subseteq_take, elem_of_order_by, list_elem_of_filter in Hm as [Hp Hin].
    split; [done|]. apply Is_true_true in Hp.
    destruct user_id as [n|].
    + destruct (n =? 0) eqn:Hn; simpl in Hp.
      * apply col_is_null_true in Hp. split; [done|].
        intros ? [= <-] Hne. by apply Z.eqb_eq in Hn.
      * apply andb_true_iff in Hp as [H1 H2].
        apply col_eq_int_true in H1. apply col_is_null_true in H2.
        split; [done|]. by intros ? [= <-] _.
    + apply col_is_null_true in Hp. split; [done|]. by intros.
Qed.

(** X13.  A message staff sends through [send_message_to_user] without
    an order id becomes an entry of the addressee's [support_messages],
    with the given text and direction [out]; sent with an order id it
    leaves the addressee's [support_messages] as they were. *)
Theorem staff_message_in_history w user message new_id now :
  (exists p,
     p ∈ support_messages
           (messages (after (send_message_to_user w (User.id user) message None
                               (DbCommits new_id now)))) user /\
     dict_get p "text" = Some (PStr message) /\
     dict_get p "direction" = Some (PStr "out")) /\
  forall order_id,
    support_messages
      (messages (after (send_message_to_user w (User.id user) message
                          (Some order_id) (DbCommits new_id now)))) user
    = support_messages (messages w) user.
Proof.
  split.
  - eexists. split.
    + apply elem_of_support_messages. eexists. split; [done|]. simpl. split.
      * apply elem_of_app. right. by left.
      * by split.
    + by split.
  - intros order_id. unfold support_messages. simpl.
    rewrite filter_app. simpl. rewrite filter_cons. simpl.
    rewrite andb_false_r. simpl. by rewrite filter_nil, app_nil_r.
Qed.

(** ** Counts of orders *)

(** X16.  In [profile_stats] the total is the sum of the three counts
    by status and of the number of the user's orders in any other
    status: an order that is neither pending, in progress nor completed
    is in the total and in none of the three counts. *)
Theorem profile_stats_counts orders user :
  exists pending in_progress completed other : nat,
    dict_get (profile_stats orders user) "pending" = Some (PInt (Z.of_nat pending)) /\
    dict_get (profile_stats orders user) "in_progress"
      = Some (PInt (Z.of_nat in_progress)) /\
    dict_get (profile_stats orders user) "completed"
      = Some (PInt (Z.of_nat completed)) /\
    dict_get (profile_stats orders user) "total_orders"
      = Some (PInt (Z.of_nat (pending + in_progress + completed + other))) /\
    other = length (filter (fun o =>
                      bool_decide (Order.user_id o = Some (User.id user))
                      && negb (col_eq_str (Order.status o) "pending"
                               || col_eq_str (Order.status o) "in_progress"
                               || col_eq_str (Order.status o) "completed"))
                    orders).
Proof.
  eexists _, _, _, _. split; [done|]. split; [done|]. split; [done|].
  split; [|done]. simpl. do 3 f_equal. unfold count_status.
  induction orders as [|o orders IH]; [done|].
  rewrite !filter_cons.
  destruct (bool_decide (Order.user_id o = Some (User.id user))); simpl; [|done].
  destruct (Order.status o) as [| | |st| | |]; simpl; try (rewrite IH; lia).
  destruct (String.eqb_spec st "pending") as [->|_]; simpl; [rewrite IH; lia|].
  destruct (String.eqb_spec st "in_progress") as [->|_]; simpl; [rewrite IH; lia|].
  destruct (String.eqb_spec st "completed") as [->|_]; simpl; rewrite IH; lia.
Qed.

(** ** update_order *)

Lemma rows_with_same_key {A} (key : A -> Z) (l : list A) x y :
  NoDup (key <$> l) -> x ∈ l -> y ∈ l -> key x = key y -> x = y.
Proof.
  induction l as [|a l IH]; simpl; [by intros _ ?%elem_of_nil|].
  intros [Ha Hl]%NoDup_cons [->|Hx]%elem_of_cons [->|Hy]%elem_of_cons Hk; auto.
  - destruct Ha. rewrite Hk. by apply list_elem_of_fmap_2.
  - destruct Ha. rewrite <- Hk. by apply list_elem_of_fmap_2.
Qed.

Lemma dict_get_None d k : dict_get d k = None <-> k ∉ d.*1.
Proof.
  induction d as [|[k' v] d IH]; simpl.
  - split; [by intros _ ?%elem_of_nil|done].
  - destruct (String.eqb_spec k' k) as [->|Hne].
    + split; [done|]. intros []. by left.
    + rewrite IH. rewrite not_elem_of_cons.
      split; [intros ?; split; [congruence|done]|by intros [_ ?]].
Qed.

Lemma setattr_order_other o k v :
  other_columns (setattr_order o k v) = other_columns o.
Proof.
  unfold setattr_order.
  destruct (String.eqb k "status"); [done|]. by destruct (String.eqb k "notes").
Qed.

Lemma setattr_order_updated_at o k v :
  Order.updated_at (setattr_order o k v) = Order.updated_at o.
Proof.
  unfold setattr_order.
  destruct (String.eqb k "status"); [done|]. by destruct (String.eqb k "notes").
Qed.

Lemma setattr_order_status o k v :
  Order.status (setattr_order o k v)
  = if String.eqb k "status" then v else Order.status o.
Proof.
  unfold setattr_order.
  destruct (String.eqb k "status"); [done|]. by destruct (String.eqb k "notes").
Qed.

Lemma setattr_order_notes o k v :
  Order.notes (setattr_order o k v)
  = if String.eqb k "status" then Order.notes o
    else if String.eqb k "notes" then v else Order.notes o.
Proof.
  unfold setattr_order.
  destruct (String.eqb k "status"); [done|]. by destruct (String.eqb k "notes").
Qed.

(** The loop of [update_order], from any state of the order and of the
    flag. *)
Lemma assign_loop payload : forall o changed,
  other_columns (foldl assign_step (o, changed) payload).1 = other_columns o /\
  Order.updated_at (foldl assign_step (o, changed) payload).1
    = Order.updated_at o /\
  (foldl assign_step (o, changed) payload).2
    = changed || existsb (fun kv => allowed kv.1) payload /\
  (NoDup payload.*1 ->
   Order.status (foldl assign_step (o, changed) payload).1
     = default (Order.status o) (dict_get payload "status") /\
   Order.notes (foldl assign_step (o, changed) payload).1
     = default (Order.notes o) (dict_get payload "notes")).
Proof.
  induction payload as [|[k v] payload IH]; intros o changed.
  - simpl. by rewrite orb_false_r.
  - cbn [foldl assign_step existsb fst dict_get fmap list_fmap].
    destruct (allowed k) eqn:Hal.
    + destruct (IH (setattr_order o k v) true) as (H1 & H2 & H3 & H4).
      rewrite H1, H2, H3, setattr_order_other, setattr_order_updated_at.
      rewrite orb_true_r.
      split; [done|]. split; [done|]. split; [done|].
      intros [Hk Hnd]%NoDup_cons. destruct (H4 Hnd) as [-> ->].
      rewrite setattr_order_status, setattr_order_notes.
      apply dict_get_None in Hk.
      destruct (String.eqb_spec k "status") as [->|_].
      { by rewrite Hk. }
      destruct (String.eqb_spec k "notes") as [->|_]; [|done].
      by rewrite Hk.
    + destruct (IH o changed) as (H1 & H2 & H3 & H4).
      unfold allowed in Hal. apply orb_false_iff in Hal as [Hs Hn].
      rewrite Hs, Hn.
      split; [done|]. split; [done|]. split; [done|].
      intros [Hk Hnd]%NoDup_cons. by destruct (H4 Hnd) as [-> ->].
Qed.

Lemma no_allowed_key payload :
  dict_get payload "status" = None -> dict_get payload "notes" = None ->
  existsb (fun kv => allowed kv.1) payload = false.
Proof.
  intros Hs%dict_get_None Hn%dict_get_None.
  induction payload as [|[k v] payload IH]; [done|]. simpl in *.
  apply not_elem_of_cons in Hs as [Hs1 Hs2], Hn as [Hn1 Hn2].
  rewrite IH by done. unfold allowed.
  destruct (String.eqb_spec k "status"); [done|].
  by destruct (String.eqb_spec k "notes").
Qed.

Lemma some_allowed_key payload :
  dict_get payload "status" <> None \/ dict_get payload "notes" <> None ->
  existsb (fun kv => allowed kv.1) payload = true.
Proof.
  intros H. induction payload as [|[k v] payload IH]; simpl in *.
  - by destruct H.
  - unfold allowed at 1.
    destruct (String.eqb_spec k "status"); [done|].
    destruct (String.eqb_spec k "notes"); [done|]. simpl. by apply IH.
Qed.

(** X17.  [update_order] does nothing at all when the payload has
    neither [status] nor [notes], whatever else it has: orders and
    history are as before and no commit is made; it answers 200 when
    the order exists and raises 404 "Order not found" when it does not. *)
Theorem update_order_ignores_other_keys orders history order_id payload admin db :
  dict_get payload "status" = None ->
  dict_get payload "notes" = None ->
  (update_order orders history order_id payload admin db).1 = (orders, history) /\
  (update_order orders history order_id payload admin db).2 =
    match db_get_order orders order_id with
    | Some _ => Http200 [("success", PBool true)]
    | None => HTTPException 404 "Order not found"
    end.
Proof.
  intros Hs Hn. unfold update_order, assign_allowed.
  destruct (db_get_order orders order_id) as [o|]; [|done].
  destruct (assign_loop payload o false) as (_ & _ & Hch & _).
  destruct (foldl _ _ _) as [o' changed]. simpl in Hch.
  rewrite no_allowed_key in Hch by done. by subst.
Qed.

Lemma flush_order_other cast payload o :
  other_columns (flush_order cast payload o) = other_columns o.
Proof. done. Qed.

(** X18.  An order is changed by [update_order] in its [status], its
    [notes] and its [updated_at] only, and no other order is changed
    (the ids of the orders being distinct); the history gets at most one
    row, for this order and by this admin. *)
Theorem update_order_touches_status_and_notes_only
    orders history order_id payload admin db :
  NoDup (Order.id <$> orders) ->
  Forall2 (fun old new =>
             other_columns new = other_columns old /\
             (Order.id old <> order_id -> new = old))
          orders (update_order orders history order_id payload admin db).1.1 /\
  ((update_order orders history order_id payload admin db).1.2 = history \/
   exists h,
     (update_order orders history order_id payload admin db).1.2 = history ++ [h] /\
     OrderStatusHistory.order_id h = order_id /\
     OrderStatusHistory.changed_by h = User.id admin).
Proof.
  intros Hnd. unfold update_order, assign_allowed.
  assert (Hsame : Forall2 (fun old new =>
             other_columns new = other_columns old /\
             (Order.id old <> order_id -> new = old)) orders orders).
  { apply Forall_Forall2_diag, Forall_forall. by intros. }
  destruct (db_get_order orders order_id) as [o|] eqn:Ho; [|split; [done|by left]].
  destruct (assign_loop payload o false) as (Hother & _ & _ & _).
  destruct (foldl _ _ _) as [o' changed]. simpl in Hother.
  destruct changed; [|simpl; split; [done|by left]].
  destruct db as [|hist_id now updated_at]; [simpl; split; [done|by left]|]. simpl. split.
  - apply Forall2_fmap_r, Forall_Forall2_diag, Forall_forall.
    intros x Hx. simpl. destruct (Z.eqb_spec (Order.id x) order_id) as [Hid|Hid].
    + apply db_get_order_Some in Ho as [Hin Hido].
      assert (x = o) as -> by (apply (rows_with_same_key Order.id orders); congruence).
      split; [|intros ?; congruence]. by rewrite <- Hother.
    + by split.
  - right. eexists. by repeat split.
Qed.

Lemma find_replaced orders order_id (new : Order.t) :
  Order.id new = order_id ->
  db_get_order ((fun x => if Order.id x =? order_id then new else x) <$> orders)
               order_id
  = match db_get_order orders order_id with Some _ => Some new | None => None end.
Proof.
  intros Hnew. unfold db_get_order.
  induction orders as [|x orders IH]; [done|]. rewrite fmap_cons. simpl.
  destruct (Z.eqb_spec (Order.id x) order_id) as [Hid|Hid].
  - by rewrite Hnew, Z.eqb_refl.
  - destruct (Z.eqb_spec (Order.id x) order_id); [done|]. apply IH.
Qed.

(** X19.  When the payload (a dict, its keys distinct) has [status] or
    [notes] and the commit goes through, [update_order] answers 200.
    The stored order then has in [status] and in [notes] what the
    payload gave, as the column holds it, which for a string is the
    string itself; a column the payload does not name keeps what it had.
    One history row is appended: its status is that of the order in
    memory as its column holds it, its notes are the payload's, [None]
    when the payload has none. *)
Theorem update_order_records_history
    orders history order_id payload admin o hist_id now updated_at :
  db_get_order orders order_id = Some o ->
  NoDup payload.*1 ->
  dict_get payload "status" <> None \/ dict_get payload "notes" <> None ->
  exists o' h,
    update_order orders history order_id payload admin
      (UpdateCommits hist_id now updated_at)
    = ((((fun x => if Order.id x =? order_id then o' else x) <$> orders),
        history ++ [h]),
       Http200 [("success", PBool true)]) /\
    db_get_order ((fun x => if Order.id x =? order_id then o' else x) <$> orders)
                 order_id = Some o' /\
    Order.status o'
      = written (Column.String 50) (Order.status o) (dict_get payload "status") /\
    Order.notes o'
      = written Column.Text (Order.notes o) (dict_get payload "notes") /\
    (forall s, dict_get payload "status" = Some (PStr s) ->
       Order.status o' = PStr s /\ OrderStatusHistory.status h = PStr s) /\
    (forall s, dict_get payload "notes" = Some (PStr s) ->
       Order.notes o' = PStr s /\ OrderStatusHistory.notes h = PStr s) /\
    OrderStatusHistory.status h
      = column sql_cast (Column.String 50)
          (default (Order.status o) (dict_get payload "status")) /\
    OrderStatusHistory.notes h
      = column sql_cast Column.Text (default PNone (dict_get payload "notes")) /\
    OrderStatusHistory.order_id h = order_id /\
    OrderStatusHistory.changed_by h = User.id admin.
Proof.
  intros Ho Hnd Hkey. unfold update_order, assign_allowed. rewrite Ho.
  destruct (assign_loop payload o false) as (Hother & _ & Hch & Hval).
  destruct (Hval Hnd) as [Hst Hno].
  destruct (foldl _ _ _) as [o' changed]. simpl in *.
  rewrite some_allowed_key in Hch by done. subst changed.
  eexists _, _. split; [done|]. split.
  { rewrite find_replaced, Ho; [done|]. simpl.
    apply db_get_order_Some in Ho as [_ <-].
    by injection Hother as ->. }
  simpl. unfold assigned, written. rewrite Hst, Hno.
  split; [by destruct (dict_get payload "status")|].
  split; [by destruct (dict_get payload "notes")|].
  split; [by intros s ->|]. split; [by intros s ->|]. done.
Qed.

(** ** update_profile *)

Lemma update_profile_spec users username email phone user db :
  update_profile users username email phone user db =
  if String.eqb (new_username username user) (User.username user)
     && bool_decide (new_email email user = User.email user)
  then (users, Http200 [("success", PBool true)])
  else match db with
       | WriteFails => (users, Unhandled DatabaseError)
       | WriteCommits =>
           ((fun u => if User.id u =? User.id user
                      then profile_after username email user else u) <$> users,
            Http200 [("success", PBool true)])
       end.
Proof.
  destruct user as [uid uname pw role mail tg created].
  unfold update_profile, profile_after, new_username, new_email. simpl.
  destruct username as [n|], email as [m|]; simpl;
    repeat (match goal with
            | |- context [String.eqb ?a ?b] =>
                destruct (String.eqb_spec a b); subst; simpl
            | |- context [bool_decide ?P] =>
                destruct (bool_decide_reflect P); simplify_eq; simpl
            end); try done; try congruence.
Qed.

Lemma keyed_update_frame {A} (key : A -> Z) (R : A -> A -> Prop)
    (users : list A) (user new : A) :
  (forall u, u ∈ users -> key u = key user -> u = user) ->
  R user new -> (forall u, R u u) ->
  Forall2 (fun old u => R old u /\ (key old <> key user -> u = old))
          users ((fun u => if key u =? key user then new else u) <$> users).
Proof.
  intros Huniq Hnew Hrefl.
  apply Forall2_fmap_r, Forall_Forall2_diag, Forall_forall.
  intros u Hu. simpl. destruct (Z.eqb_spec (key u) (key user)) as [Hk|Hk].
  - rewrite (Huniq u Hu Hk). split; [done|]. by intros [].
  - by split.
Qed.

(** X20.  [update_profile] can change the name and the e-mail address
    of the caller and nothing else: in every row the id, the password
    hash, the role, the Telegram id and the creation time stay, and the
    rows of the other users stay as they are ([user] being the row of
    the table with its id). *)
Theorem update_profile_keeps_identity users username email phone user db :
  (forall u, u ∈ users -> User.id u = User.id user -> u = user) ->
  Forall2 (fun old u =>
             (User.id u = User.id old /\
              User.password_hash u = User.password_hash old /\
              User.role u = User.role old /\
              User.telegram_id u = User.telegram_id old /\
              User.created_at u = User.created_at old) /\
             (User.id old <> User.id user -> u = old))
          users (update_profile users username email phone user db).1.
Proof.
  intros Huniq. rewrite update_profile_spec.
  assert (Hsame : Forall2 (fun old u =>
             (User.id u = User.id old /\
              User.password_hash u = User.password_hash old /\
              User.role u = User.role old /\
              User.telegram_id u = User.telegram_id old /\
              User.created_at u = User.created_at old) /\
             (User.id old <> User.id user -> u = old)) users users).
  { apply Forall_Forall2_diag, Forall_forall. by intros. }
  destruct (_ && _); [done|]. destruct db; [done|]. simpl.
  by apply (keyed_update_frame User.id
              (fun old u => User.id u = User.id old /\
                 User.password_hash u = User.password_hash old /\
                 User.role u = User.role old /\
                 User.telegram_id u = User.telegram_id old /\
                 User.created_at u = User.created_at old)).
Qed.

Lemma profile_after_twice username email user :
  profile_after username email (profile_after username email user)
  = profile_after username email user.
Proof.
  unfold profile_after, new_username, new_email. simpl.
  destruct username as [n|], email as [m|]; simpl;
    repeat (match goal with
            | |- context [String.eqb ?a ?b] => destruct (String.eqb a b); simpl
            end); done.
Qed.

Lemma profile_unchanged username email user :
  String.eqb (new_username username user) (User.username user)
  && bool_decide (new_email email user = User.email user) = true <->
  profile_after username email user = user.
Proof.
  destruct user as [uid uname pw role mail tg created].
  unfold profile_after. simpl. rewrite andb_true_iff, String.eqb_eq, bool_decide_eq_true.
  split; [by intros [-> ->]|by intros [= -> ->]].
Qed.

(** X21.  [update_profile] is idempotent: once an update has been
    committed, the same update asked again for the row now stored finds
    nothing to change, makes no commit (so it answers 200 even if the
    database would refuse a write) and leaves the table as it is.  An
    empty or absent name or address asks for no change. *)
Theorem update_profile_idempotent users username email phone user user' db :
  (forall u, u ∈ users -> User.id u = User.id user -> u = user) ->
  user' ∈ (update_profile users username email phone user WriteCommits).1 ->
  User.id user' = User.id user ->
  update_profile (update_profile users username email phone user WriteCommits).1
    username email phone user' db
  = ((update_profile users username email phone user WriteCommits).1,
     Http200 [("success", PBool true)]).
Proof.
  intros Huniq Hin' Hid. rewrite (update_profile_spec users) in *.
  destruct (_ && _) eqn:Hsame; simpl in *.
  - rewrite (Huniq user' Hin' Hid), update_profile_spec. by rewrite Hsame.
  - apply list_elem_of_fmap in Hin' as (u & -> & Hu).
    destruct (Z.eqb_spec (User.id u) (User.id user)) as [Hk|Hk].
    + rewrite update_profile_spec.
      rewrite (proj2 (profile_unchanged _ _ _)); [done|].
      apply profile_after_twice.
    + destruct Hk. revert Hid. simpl.
      by destruct (Z.eqb_spec (User.id u) (User.id user)).
Qed.

(** ** ensure_admin *)

Lemma find_username users username user :
  find (fun u => String.eqb (User.username u) username) users = Some user ->
  user ∈ users /\ User.username user = username.
Proof.
  intros [Hin Heq]%find_some. split; [by apply list_elem_of_In|].
  by apply String.eqb_eq.
Qed.

(** X22.  After a committed [ensure_admin] there is a user with the
    given name, the role [admin] and the hash made in this call; the
    users with another name are still there, unchanged (the ids of the
    users being distinct).  A user that already had the name is promoted
    in place, keeping its id, e-mail address and Telegram id, and the
    table does not grow; otherwise one row is added. *)
Theorem ensure_admin_makes_admin users username password hashed new_id now :
  NoDup (User.id <$> users) ->
  (exists u,
     u ∈ (ensure_admin users username password hashed (DbCommits new_id now)).1 /\
     User.username u = username /\
     User.role u = Some "admin" /\
     User.password_hash u = hashed /\
     match find (fun u => String.eqb (User.username u) username) users with
     | Some old =>
         User.id u = User.id old /\ User.email u = User.email old /\
         User.telegram_id u = User.telegram_id old /\
         (ensure_admin users username password hashed (DbCommits new_id now)).2
           = Ok "updated" /\
         length (ensure_admin users username password hashed
                   (DbCommits new_id now)).1 = length users
     | None =>
         User.id u = new_id /\
         (ensure_admin users username password hashed (DbCommits new_id now)).2
           = Ok "created" /\
         length (ensure_admin users username password hashed
                   (DbCommits new_id now)).1 = S (length users)
     end) /\
  forall v, v ∈ users -> User.username v <> username ->
    v ∈ (ensure_admin users username password hashed (DbCommits new_id now)).1.
Proof.
  intros Hnd. unfold ensure_admin.
  destruct (find _ users) as [old|] eqn:Hfind; simpl.
  - apply find_username in Hfind as [Hin Hname]. split.
    + eexists. split.
      * apply list_elem_of_fmap. exists old. split; [|done].
        by rewrite Z.eqb_refl.
      * simpl. repeat split; try done. by rewrite length_fmap.
    + intros v Hv Hne. apply list_elem_of_fmap. exists v. split; [|done].
      destruct (Z.eqb_spec (User.id v) (User.id old)) as [Hk|Hk]; [|done].
      destruct Hne. by rewrite (rows_with_same_key User.id users v old).
  - split.
    + eexists. split.
      * apply elem_of_app. right. by left.
      * simpl. repeat split; try done. rewrite length_app. simpl. lia.
    + intros v Hv _. apply elem_of_app. by left.
Qed.

(** ** The Flask version of send_message_to_user *)

Lemma flask_send_dict rows d db :
  d <> [] ->
  Flask.send_message_to_user sql_cast rows (PDict d) db =
  match py_strip (if truthy (default PNone (dict_get d "message"))
                  then default PNone (dict_get d "message") else PStr "") with
  | Raise e => (rows, Flask.Error500 e)
  | Ok text =>
      if negb (truthy (default PNone (dict_get d "user_id")))
         || negb (truthy (PStr text))
      then (rows, Flask.Json 400 [("success", PBool false);
                                  ("error", PStr "Missing user_id or message")])
      else
        match db_add_commit sql_cast rows
                (new_Message (default PNone (dict_get d "user_id")) (PStr "admin")
                   "out" text (default PNone (dict_get d "order_id"))) db with
        | Raise e => (rows, Flask.Error500 e)
        | Ok (rows', _) => (rows', Flask.Json 200 [("success", PBool true)])
        end
  end.
Proof.
  intros Hd. destruct d as [|kv d]; [done|].
  unfold Flask.send_message_to_user. cbn [truthy]. cbn [py_get mbind res_bind].
  by destruct (py_strip _).
Qed.

(** X7.  The Flask [send_message_to_user] writes a row exactly for a
    dict body with a truthy [user_id] and a message that is a string and
    not blank, when the database commits: the row then holds the message
    trimmed, direction [out], the name [admin], and [user_id] and
    [order_id] as their columns hold them, an integer being stored as it
    is; the answer is 200.  In every other case the table is left as it
    is, and a string message with a falsy [user_id], or one that is
    blank, is answered with 400. *)
Theorem flask_send_validates rows body db :
  ((Flask.send_message_to_user sql_cast rows body db).1 = rows \/
   exists d user_id s new_id now,
     body = PDict d /\
     dict_get d "user_id" = Some user_id /\ truthy user_id = true /\
     dict_get d "message" = Some (PStr s) /\ strip s <> "" /\
     db = DbCommits new_id now) /\
  (forall d user_id s new_id now,
     body = PDict d ->
     dict_get d "user_id" = Some user_id -> truthy user_id = true ->
     dict_get d "message" = Some (PStr s) -> strip s <> "" ->
     db = DbCommits new_id now ->
     exists row,
       Flask.send_message_to_user sql_cast rows body db
       = (rows ++ [row], Flask.Json 200 [("success", PBool true)]) /\
       Message.id row = PInt new_id /\
       Message.user_id row = column sql_cast Column.BigInteger user_id /\
       (forall n, user_id = PInt n -> Message.user_id row = PInt n) /\
       Message.username row = PStr "admin" /\
       Message.direction row = "out" /\
       Message.text row = strip s /\
       Message.order_id row
         = column sql_cast Column.BigInteger
             (default PNone (dict_get d "order_id"))) /\
  forall d s,
    body = PDict d ->
    dict_get d "message" = Some (PStr s) ->
    truthy (default PNone (dict_get d "user_id")) = false \/ strip s = "" ->
    Flask.send_message_to_user sql_cast rows body db
    = (rows, Flask.Json 400 [("success", PBool false);
                             ("error", PStr "Missing user_id or message")]).
Proof.
  split; [|split].
  - destruct body as [|b|n|s0|t|l|d].
    1-6: unfold Flask.send_message_to_user; simpl.
    + by left.
    + destruct b; by left.
    + destruct (n =? 0); by left.
    + destruct (String.eqb s0 ""); by left.
    + by left.
    + destruct l; by left.
    + destruct d as [|kv d]; [by left|].
      rewrite flask_send_dict by done. generalize (kv :: d). clear kv d. intros d'.
      destruct (dict_get d' "message") as [[|b|n|s|t|l|dd]|] eqn:Hm; simpl.
      * rewrite orb_true_r. by left.
      * destruct b; simpl; [by left|]. rewrite orb_true_r. by left.
      * destruct (n =? 0); simpl; [|by left]. rewrite orb_true_r. by left.
      * destruct (String.eqb_spec s "") as [->|Hs]; simpl.
        { rewrite orb_true_r. by left. }
        destruct (dict_get d' "user_id") as [uid|] eqn:Hu; simpl; [|by left].
        destruct (truthy uid) eqn:Htu; simpl; [|by left].
        destruct (String.eqb_spec (strip s) "") as [He|He]; simpl; [by left|].
        destruct db as [|new_id now]; simpl; [by left|].
        right. by exists d', uid, s, new_id, now.
      * by left.
      * destruct l; simpl; [|by left]. rewrite orb_true_r. by left.
      * destruct dd; simpl; [|by left]. rewrite orb_true_r. by left.
      * rewrite orb_true_r. by left.
  - intros d user_id s new_id now -> Hu Htu Hm Hs ->.
    assert (Hd : d <> []) by (by destruct d).
    rewrite flask_send_dict by done. rewrite Hm, Hu. simpl.
    destruct (String.eqb_spec s "") as [->|_]; [by destruct Hs|]. simpl.
    rewrite Htu. simpl.
    destruct (String.eqb_spec (strip s) "") as [|_]; [done|]. simpl.
    eexists. repeat split; try done. by intros n ->.
  - intros d s -> Hm Hbad.
    assert (Hd : d <> []) by (by destruct d).
    rewrite flask_send_dict by done. rewrite Hm. simpl.
    destruct (String.eqb_spec s "") as [->|Hs]; simpl.
    { by rewrite orb_true_r. }
    destruct Hbad as [-> | ->]; [done|]. simpl. by rewrite orb_true_r.
Qed.

(** X8.  For a body with an integer [user_id] that is not 0, a message
    that is not blank and an integer or absent [order_id], the Flask
    [send_message_to_user] leaves the table the FastAPI one leaves when
    it is given the trimmed message: the two differ only in that Flask
    trims the text and FastAPI stores it as it comes. *)
Theorem flask_send_agrees_with_fastapi w d user_id s order_id db :
  dict_get d "user_id" = Some (PInt user_id) -> user_id <> 0 ->
  dict_get d "message" = Some (PStr s) -> strip s <> "" ->
  dict_get d "order_id" = PInt <$> order_id ->
  (Flask.send_message_to_user sql_cast (messages w) (PDict d) db).1
  = messages (after (send_message_to_user w user_id (strip s) order_id db)).
Proof.
  intros Hu Hne Hm Hs Ho.
  rewrite flask_send_dict by (by destruct d).
  unfold send_message_to_user. rewrite Hu, Hm, Ho. simpl.
  destruct (String.eqb_spec s "") as [->|_]; [by destruct Hs|]. simpl.
  destruct (Z.eqb_spec user_id 0) as [|_]; [done|]. simpl.
  destruct (String.eqb_spec (strip s) "") as [|_]; [done|]. simpl.
  destruct db; simpl; [done|]. by destruct order_id.
Qed.

(** ** Registration and new orders *)

(** X23.  [client_register] refuses with 400 "User exists", writing
    nothing, whenever a user has the name or the e-mail address asked
    for.  When nobody has either and the database commits, it adds one
    row after the old ones, with the key the database gave, the role
    [client] and the name, address and hash given, and answers with a
    token made of that key and name; when the database fails, nothing
    is written.  Names that were distinct stay distinct. *)
Theorem client_register_keeps_names_distinct
    (jwt_encode : list (string * pyval) -> string)
    users email username password hashed expire db :
  (forall u, u ∈ users ->
     User.username u = username \/ User.email u = Some email ->
     client_register jwt_encode users email username password hashed expire db
     = (users, HTTPException 400 "User exists")) /\
  ((forall u, u ∈ users ->
      User.username u <> username /\ User.email u <> Some email) ->
   forall new_id now,
     db = DbCommits new_id now ->
     exists new,
       client_register jwt_encode users email username password hashed expire db
       = (users ++ [new],
          Http200 [("token",
                    PStr (create_access_token jwt_encode
                            [("user_id", PInt new_id);
                             ("username", PStr username)] expire))]) /\
       User.id new = new_id /\
       User.role new = Some "client" /\ User.username new = username /\
       User.email new = Some email /\ User.password_hash new = hashed) /\
  (db = DbFails ->
   (client_register jwt_encode users email username password hashed expire db).1
   = users) /\
  (NoDup (User.username <$> users) ->
   NoDup (User.username <$>
            (client_register jwt_encode users email username password hashed
               expire db).1)).
Proof.
  unfold client_register.
  destruct (find _ users) as [taken|] eqn:Hfind.
  - split; [done|]. split; [|done].
    intros Hfree new_id now _.
    apply find_some in Hfind as [Hin Htaken].
    apply list_elem_of_In, Hfree in Hin as [Hn He].
    apply orb_true_iff in Htaken as [Ht|Ht].
    + by apply bool_decide_eq_true in Ht.
    + by apply String.eqb_eq in Ht.
  - assert (Hfree : forall u, u ∈ users ->
              User.username u <> username /\ User.email u <> Some email).
    { intros u Hu%list_elem_of_In. apply (find_none _ _ Hfind) in Hu.
      apply orb_false_iff in Hu as [He Hn].
      apply bool_decide_eq_false in He. apply String.eqb_neq in Hn. done. }
    split.
    { intros u Hu [Hn|He]; by destruct (Hfree u Hu). }
    destruct db as [|new_id now]; simpl.
    { split; [done|]. split; done. }
    split; [|split; [done|]].
    + intros _ ? ? [= <- <-]. eexists. by repeat split.
    + intros Hnd. rewrite fmap_app. apply NoDup_app. split; [done|]. split.
      * intros name (u & -> & Hu)%list_elem_of_fmap [Heq|[]%elem_of_nil]%elem_of_cons.
        by destruct (Hfree u Hu).
      * apply NoDup_singleton.
Qed.

Lemma db_get_order_app orders o order_id :
  db_get_order (orders ++ [o]) order_id =
  match db_get_order orders order_id with
  | Some x => Some x
  | None => if Order.id o =? order_id then Some o else None
  end.
Proof.
  unfold db_get_order. induction orders as [|x orders IH]; simpl.
  - by destruct (Order.id o =? order_id).
  - by destruct (Order.id x =? order_id).
Qed.

(** X24.  An order made by [create_order] under a key no stored order
    has is then shown by [client_order_detail] to its maker, with status
    [pending] and its files listed, and to nobody else (404); in the
    maker's [profile_stats] the total and the pending count are one
    more than before and the other counts are as before. *)
Theorem created_order_is_pending_and_owned
    orders order_id user topic requirements order_type subject deadline volume
    files now :
  db_get_order orders order_id = None ->
  exists o,
    (create_order orders order_id user topic requirements order_type subject
       deadline volume files WriteCommits now)
    = (orders ++ [o], Http200 [("order_id", PInt order_id)]) /\
    client_order_detail (orders ++ [o]) order_id user = Http200 (serialize_order o) /\
    dict_get (serialize_order o) "status" = Some (PStr "pending") /\
    dict_get (serialize_order o) "files"
      = Some (PList ((fun f => PDict [("file_id", PStr f); ("file_name", PStr f)])
                       <$> files)) /\
    (forall other, User.id other <> User.id user ->
       client_order_detail (orders ++ [o]) order_id other
       = HTTPException 404 "Not found") /\
    (exists total pending : nat,
       dict_get (profile_stats orders user) "total_orders"
         = Some (PInt (Z.of_nat total)) /\
       dict_get (profile_stats (orders ++ [o]) user) "total_orders"
         = Some (PInt (Z.of_nat (S total))) /\
       dict_get (profile_stats orders user) "pending"
         = Some (PInt (Z.of_nat pending)) /\
       dict_get (profile_stats (orders ++ [o]) user) "pending"
         = Some (PInt (Z.of_nat (S pending)))) /\
    dict_get (profile_stats (orders ++ [o]) user) "in_progress"
      = dict_get (profile_stats orders user) "in_progress" /\
    dict_get (profile_stats (orders ++ [o]) user) "completed"
      = dict_get (profile_stats orders user) "completed".
Proof.
  intros Hfree. eexists. split; [done|].
  unfold client_order_detail. rewrite db_get_order_app, Hfree. simpl.
  rewrite Z.eqb_refl. simpl.
  split; [by rewrite bool_decide_eq_true_2|]. split; [done|]. split.
  { by destruct files. }
  split.
  { intros other Hne. rewrite bool_decide_eq_false_2; [done|]. by intros [=]. }
  unfold count_status. rewrite !filter_app, !length_app.
  rewrite !filter_cons. simpl. rewrite bool_decide_eq_true_2 by done. simpl.
  split.
  - eexists _, _. split; [done|]. split; [do 3 f_equal; lia|].
    split; [done|]. do 3 f_equal. lia.
  - split; do 3 f_equal; lia.
Qed.

End Handlers.

(** ** Concrete scenarios *)

Example strip_trims_both_ends : strip "  status? " = "status?".
Proof. reflexivity. Qed.

Example strip_of_whitespace_is_empty : strip "   " = "".
Proof. reflexivity. Qed.

(** Whitespace beyond ASCII is whitespace too. *)
Example strip_of_unicode_whitespace_is_empty :
  strip (no_break_space +:+ em_space +:+ next_line +:+ " ") = "".
Proof. reflexivity. Qed.

Example strip_keeps_the_inside :
  strip (no_break_space +:+ "a" +:+ em_space +:+ "b" +:+ em_space)
  = "a" +:+ em_space +:+ "b".
Proof. reflexivity. Qed.

Example zero_and_empty_are_falsy :
  truthy (PInt 0) = false /\ truthy (PStr "") = false /\ truthy (PInt 555) = true.
Proof. by repeat split. Qed.

(** Two connections are admitted and join the room of order 555, and
    the first sends "status?" with the client id "c1": both are in the
    room, the handler raises, no row is stored and nobody is sent
    anything. *)
Example two_members_receive_nothing :
  let events :=
    [EvConnect "s1" PNone alice_auth;
     EvConnect "s2" PNone bob_auth;
     EvJoinOrderRoom "s1" (PDict order_555);
     EvJoinOrderRoom "s2" (PDict order_555)] in
  let w := (run demo_decode str_scalar demo_cast empty_world events).1 in
  Sio.members w "order_555" = {[ "s1"; "s2" ]} /\
  sessions w = ∅ /\
  send_message str_scalar demo_cast w "s1"
    (PDict (status_request (PStr "c1"))) (DbCommits 1 100)
  = Effect w [] (Raised TypeError).
Proof. vm_compute. by repeat split. Qed.

(** A body whose message is a no-break space is answered with 400 by the
    Flask route, and a [user_id] that comes as the string "7" is stored
    as the number the column makes of it. *)
Example flask_blank_and_cast :
  Flask.send_message_to_user demo_cast []
    (PDict [("user_id", PInt 7); ("message", PStr no_break_space)])
    (DbCommits 1 100)
  = ([], Flask.Json 400 [("success", PBool false);
                         ("error", PStr "Missing user_id or message")]) /\
  Message.user_id <$>
    (Flask.send_message_to_user demo_cast []
       (PDict [("user_id", PStr "7"); ("message", PStr "Hello")])
       (DbCommits 1 100)).1
  = [PInt 7].
Proof. split; reflexivity. Qed.

Lemma accepted_send_stores_nothing_witness :
  result (socket_send str_scalar demo_cast OrderScoped two_member_world "s1"
            (PDict (status_request (PStr "c1"))) (DbCommits 1 100))
    = Raised TypeError /\
  messages (after (socket_send str_scalar demo_cast OrderScoped two_member_world
                     "s1" (PDict (status_request (PStr "c1"))) (DbCommits 1 100)))
    = [].
Proof.
  destruct (accepted_send_stores_nothing str_scalar demo_cast OrderScoped
              two_member_world "s1" (status_request (PStr "c1")) "status?"
              (DbCommits 1 100))
    as (Hraised & Hrows & _).
  - reflexivity.
  - vm_compute. discriminate.
  - intros _. reflexivity.
  - split; [exact Hraised|exact Hrows].
Defined.

Lemma bad_credential_refused_witness :
  bad_credential demo_decode forged_auth /\
  connect demo_decode empty_world "s1" PNone forged_auth
    = Effect empty_world [] (Returned (PBool false)) /\
  Sio.get_session
    (run demo_decode str_scalar demo_cast empty_world
       [EvConnect "s1" PNone forged_auth;
        EvJoin "s1" PNone;
        EvJoinOrderRoom "s1" (PDict order_555);
        EvSendMessage "s1" (PDict (status_request (PStr "c1"))) (DbCommits 1 100)]).1
    "s1" = None.
Proof.
  assert (H : bad_credential demo_decode forged_auth).
  { intros token Ht. injection Ht as <-. reflexivity. }
  split; [exact H|].
  destruct (bad_credential_refused demo_decode str_scalar demo_cast
              empty_world "s1" PNone forged_auth H) as [Hrefused Hnever].
  split; [exact Hrefused|].
  apply (Hnever [EvJoin "s1" PNone;
                 EvJoinOrderRoom "s1" (PDict order_555);
                 EvSendMessage "s1" (PDict (status_request (PStr "c1")))
                   (DbCommits 1 100)]).
  - repeat constructor.
  - reflexivity.
  - intros r Hr. vm_compute in Hr. discriminate.
Defined.

Lemma connect_admits_without_joining_witness :
  good_credential demo_decode alice_auth alice_claims /\
  result (connect demo_decode empty_world "s1" PNone alice_auth) = Returned PNone /\
  rooms (after (connect demo_decode empty_world "s1" PNone alice_auth)) = ∅.
Proof.
  assert (H : good_credential demo_decode alice_auth alice_claims).
  { exists (PStr "alice-token"). repeat split; reflexivity. }
  split; [exact H|].
  destruct (connect_admits_without_joining demo_decode empty_world "s1" PNone
              alice_auth alice_claims H) as (Hadmitted & Hrooms & _).
  split; [exact Hadmitted|exact Hrooms].
Defined.

Lemma connect_then_join_order_room_witness :
  good_credential demo_decode alice_auth alice_claims /\
  "s1" ∈ Sio.members
           (after (join_order_room str_scalar
                     (after (connect demo_decode empty_world "s1" PNone alice_auth))
                     "s1" (PDict order_555)))
           "order_555" /\
  "s1" ∈ Sio.members
           (after (join_order_room str_scalar
                     (after (connect demo_decode empty_world "s1" PNone alice_auth))
                     "s1" (PDict [("order_id", PInt (generate_order_id lowest))])))
           "order_100000000" /\
  after (connect demo_decode empty_world "s1" PNone forged_auth) = empty_world.
Proof.
  assert (H : good_credential demo_decode alice_auth alice_claims).
  { exists (PStr "alice-token"). repeat split; reflexivity. }
  split; [exact H|].
  destruct (connect_then_join_order_room demo_decode str_scalar
              empty_world "s1" PNone alice_auth alice_claims H)
    as (_ & Hjoined & Hissued & Hrefused).
  split; [exact (Hjoined order_555 (PInt 555) eq_refl eq_refl)|].
  split.
  - apply (Hissued lowest [("order_id", PInt (generate_order_id lowest))]).
    + intros lo hi Hle. unfold lowest. lia.
    + reflexivity.
  - apply (Hrefused forged_auth).
    intros token Ht. injection Ht as <-. reflexivity.
Defined.

Lemma malformed_request_is_dropped_witness :
  after (step demo_decode str_scalar demo_cast alice_world
           (EvSendMessage "s1"
              (PDict [("order_id", PInt 555);
                      ("text", PStr (" " +:+ no_break_space +:+ em_space))])
              (DbCommits 1 100)))
  = alice_world /\
  result (step demo_decode str_scalar demo_cast alice_world
            (EvSendMessage "s1"
               (PDict [("order_id", PInt 555);
                       ("text", PStr (" " +:+ no_break_space +:+ em_space))])
               (DbCommits 1 100)))
  = Returned PNone.
Proof.
  destruct (malformed_request_is_dropped demo_decode str_scalar demo_cast
              alice_world
              (EvSendMessage "s1"
                 (PDict [("order_id", PInt 555);
                         ("text", PStr (" " +:+ no_break_space +:+ em_space))])
                 (DbCommits 1 100)))
    as (Hworld & _ & Hreturns).
  - right. vm_compute. reflexivity.
  - split; [exact Hworld|]. apply Hreturns. vm_compute. exact I.
Defined.


Lemma join_leave_idempotent_witness :
  Sio.members
    (run demo_decode str_scalar demo_cast alice_world
       (op_event (PDict order_555)
          <$> [DoJoin "s1"; DoLeave "s2"; DoLeave "s1"; DoLeave "s1"; DoJoin "s1"])).1
    "order_555"
  = {[ "s1" ]}.
Proof.
  rewrite (proj2 (proj2 (proj2 (proj2 (proj2
             (join_leave_idempotent demo_decode str_scalar demo_cast alice_world
                "order_555")))
             order_555 (PInt 555) eq_refl eq_refl eq_refl))).
  vm_compute. reflexivity.
Defined.

(** C4: right after a successful [connect] the connection is not in its
    personal room. *)
Lemma connect_alone_enters_no_room :
  result (connect demo_decode empty_world "s1" PNone alice_auth) = Returned PNone /\
  ~ "s1" ∈ Sio.members
             (after (connect demo_decode empty_world "s1" PNone alice_auth))
             (user_room str_scalar (PInt 7)).
Proof.
  split; [reflexivity|].
  intros H. vm_compute in H. discriminate.
Qed.


(** ** Concrete scenarios for the further properties *)


Lemma flask_send_agrees_with_fastapi_witness :
  (Flask.send_message_to_user demo_cast (messages empty_world)
     (PDict [("user_id", PInt 7); ("message", PStr " Hello ")])
     (DbCommits 1 100)).1
  = messages (after (send_message_to_user demo_cast empty_world 7
                       (strip " Hello ") None (DbCommits 1 100))).
Proof.
  apply (flask_send_agrees_with_fastapi demo_cast empty_world
           [("user_id", PInt 7); ("message", PStr " Hello ")] 7 " Hello " None).
  - reflexivity.
  - discriminate.
  - reflexivity.
  - vm_compute. discriminate.
  - reflexivity.
Defined.

Lemma update_order_ignores_other_keys_witness :
  (update_order demo_cast demo_orders [] 555 [("price", PInt 1)] alice_user
     UpdateFails).1
  = (demo_orders, []).
Proof.
  apply (update_order_ignores_other_keys demo_cast demo_orders [] 555
           [("price", PInt 1)] alice_user UpdateFails); reflexivity.
Defined.

Lemma update_order_touches_status_and_notes_only_witness :
  NoDup (Order.id <$> demo_orders) /\
  ((update_order demo_cast demo_orders [] 555 [("status", PStr "in_progress")]
      alice_user (UpdateCommits 1 200 (PDateTime 200))).1.2 = [] \/
   exists h,
     (update_order demo_cast demo_orders [] 555 [("status", PStr "in_progress")]
        alice_user (UpdateCommits 1 200 (PDateTime 200))).1.2 = [] ++ [h] /\
     OrderStatusHistory.order_id h = 555 /\
     OrderStatusHistory.changed_by h = User.id alice_user).
Proof.
  assert (H : NoDup (Order.id <$> demo_orders)) by apply NoDup_singleton.
  split; [exact H|].
  exact (proj2 (update_order_touches_status_and_notes_only demo_cast demo_orders
                  [] 555 [("status", PStr "in_progress")] alice_user
                  (UpdateCommits 1 200 (PDateTime 200)) H)).
Defined.

(** A status that is a string is stored as it is; notes that come as the
    number 5 are stored as the database casts them, here as "5". *)
Lemma update_order_records_history_witness :
  exists o' h,
    update_order demo_cast demo_orders [] 555
      [("status", PStr "in_progress"); ("notes", PInt 5)] alice_user
      (UpdateCommits 1 200 (PDateTime 200))
    = ((((fun x => if Order.id x =? 555 then o' else x) <$> demo_orders), [] ++ [h]),
       Http200 [("success", PBool true)]) /\
    Order.status o' = PStr "in_progress" /\
    Order.notes o' = PStr "5" /\
    OrderStatusHistory.status h = PStr "in_progress" /\
    OrderStatusHistory.notes h = PStr "5".
Proof.
  destruct (update_order_records_history demo_cast demo_orders [] 555
              [("status", PStr "in_progress"); ("notes", PInt 5)] alice_user
              order_555_row 1 200 (PDateTime 200))
    as (o' & h & Hrun & _ & _ & Hno & Hst & _ & _ & Hhno & _).
  - reflexivity.
  - apply NoDup_cons. split; [|apply NoDup_singleton].
    intros H. apply list_elem_of_singleton in H. discriminate H.
  - left. discriminate.
  - exists o', h. split; [exact Hrun|].
    destruct (Hst "in_progress" eq_refl) as [Hos Hhs].
    split; [exact Hos|]. split; [exact Hno|]. split; [exact Hhs|exact Hhno].
Defined.

Lemma alice_row_is_unique u :
  u ∈ demo_users -> User.id u = User.id alice_user -> u = alice_user.
Proof.
  intros Hu Hid. apply elem_of_cons in Hu as [->|Hu]; [reflexivity|].
  apply list_elem_of_singleton in Hu. subst u. discriminate Hid.
Defined.

Lemma update_profile_keeps_identity_witness :
  Forall2 (fun old u =>
             (User.id u = User.id old /\
              User.password_hash u = User.password_hash old /\
              User.role u = User.role old /\
              User.telegram_id u = User.telegram_id old /\
              User.created_at u = User.created_at old) /\
             (User.id old <> User.id alice_user -> u = old))
          demo_users
          (update_profile demo_users (Some "alice2") (Some "") None alice_user
             WriteCommits).1.
Proof.
  apply (update_profile_keeps_identity demo_users (Some "alice2") (Some "") None
           alice_user WriteCommits).
  exact alice_row_is_unique.
Defined.

Lemma update_profile_idempotent_witness :
  update_profile
    (update_profile demo_users (Some "alice2") None None alice_user WriteCommits).1
    (Some "alice2") None None
    (profile_after (Some "alice2") None alice_user) WriteFails
  = ((update_profile demo_users (Some "alice2") None None alice_user WriteCommits).1,
     Http200 [("success", PBool true)]).
Proof.
  apply (update_profile_idempotent demo_users (Some "alice2") None None alice_user
           (profile_after (Some "alice2") None alice_user) WriteFails).
  - exact alice_row_is_unique.
  - vm_compute. left.
  - reflexivity.
Defined.

Lemma ensure_admin_makes_admin_witness :
  (exists u,
     u ∈ (ensure_admin demo_users "bob" "secret" "hash-new" (DbCommits 9 300)).1 /\
     User.username u = "bob" /\ User.role u = Some "admin") /\
  alice_user ∈ (ensure_admin demo_users "bob" "secret" "hash-new" (DbCommits 9 300)).1.
Proof.
  destruct (ensure_admin_makes_admin demo_users "bob" "secret" "hash-new" 9 300)
    as [(u & Hin & Hname & Hrole & _) Hkept].
  - apply NoDup_cons. split; [|apply NoDup_singleton].
    intros H. apply list_elem_of_singleton in H. discriminate H.
  - split.
    + exists u. split; [exact Hin|]. split; [exact Hname|exact Hrole].
    + apply Hkept; [left|discriminate].
Defined.

Lemma created_order_is_pending_and_owned_witness :
  exists o,
    create_order [] 555 alice_user "Essay" "Ten pages" PNone PNone PNone PNone
      ["a.pdf"] WriteCommits 100
    = ([] ++ [o], Http200 [("order_id", PInt 555)]) /\
    client_order_detail ([] ++ [o]) 555 alice_user = Http200 (serialize_order o) /\
    client_order_detail ([] ++ [o]) 555 bob_user = HTTPException 404 "Not found".
Proof.
  destruct (created_order_is_pending_and_owned [] 555 alice_user "Essay"
              "Ten pages" PNone PNone PNone PNone ["a.pdf"] 100)
    as (o & Hrun & Hown & _ & _ & Hother & _).
  - reflexivity.
  - exists o. split; [exact Hrun|]. split; [exact Hown|].
    apply Hother. discriminate.
Defined.
